(** * gossa: an SSA interpreter for Go -- shallow embedding of the core

    The development follows the interpreter sources:
    the value helpers ([asInt], [asUint64], [slice], [opSHL], [opSHR],
    [IsNil], [opEQL], [equalValue]), the register file ([Register],
    [regIndex]), the instruction steps built by [makeInstr] (Lookup,
    Select, Defer, RunDefers), the defer/panic machinery ([runDefer],
    [runDefers], [doRecover]) and the top-level runner ([Run]).

    Go panics are modelled by an explicit [result] type; pointers by
    addresses into explicit stores; the host is taken to be 64-bit
    (the source computes [intSize = 32 << (^uint(0) >> 63)]). *)

From Stdlib Require Import ZArith String List Bool Lia DecimalString.
From stdpp Require Import base option list gmap strings.

Set Warnings "-register-all".
Local Open Scope Z_scope.

(** ** Reflection kinds and types *)

(** [reflect.Kind], in the order of the Go [reflect] package. *)
Inductive rkind :=
| Invalid | Bool | Int | Int8 | Int16 | Int32 | Int64
| Uint | Uint8 | Uint16 | Uint32 | Uint64 | Uintptr
| Float32 | Float64 | Complex64 | Complex128
| Array | Chan | Func | Interface | Map | Ptr | Slice | String | Struct
| UnsafePointer.

Global Instance rkind_eq_dec : EqDecision rkind.
Proof. solve_decision. Defined.

Inductive chanDir := RecvDir | SendDir | BothDir.

Global Instance chanDir_eq_dec : EqDecision chanDir.
Proof. solve_decision. Defined.

(** [reflect.Type].  A named type carries its name and its underlying
    type; a struct type lists its fields (name, type). *)
Inductive rtype :=
| TBasic (k : rkind)
| TNamed (name : string) (under : rtype)
| TArray (n : nat) (elem : rtype)
| TSlice (elem : rtype)
| TPtr (elem : rtype)
| TMap (key elem : rtype)
| TChan (dir : chanDir) (elem : rtype)
| TFunc (sig : string)
| TInterface (name : string)
| TStruct (fields : list (string * rtype)).

Fixpoint Kind_of (t : rtype) : rkind :=
  match t with
  | TBasic k => k
  | TNamed _ u => Kind_of u
  | TArray _ _ => Array
  | TSlice _ => Slice
  | TPtr _ => Ptr
  | TMap _ _ => Map
  | TChan _ _ => Chan
  | TFunc _ => Func
  | TInterface _ => Interface
  | TStruct _ => Struct
  end.

(** [Type.Elem()] for the container kinds; [None] where Go panics. *)
Fixpoint Elem_of (t : rtype) : option rtype :=
  match t with
  | TNamed _ u => Elem_of u
  | TArray _ e | TSlice e | TPtr e | TMap _ e | TChan _ e => Some e
  | _ => None
  end.

Fixpoint ChanDir_of (t : rtype) : chanDir :=
  match t with
  | TNamed _ u => ChanDir_of u
  | TChan d _ => d
  | _ => BothDir
  end.

Fixpoint rtype_eqb (a b : rtype) {struct a} : bool :=
  match a, b with
  | TBasic k, TBasic k' => bool_decide (k = k')
  | TNamed n u, TNamed n' u' => String.eqb n n' && rtype_eqb u u'
  | TArray n e, TArray n' e' => Nat.eqb n n' && rtype_eqb e e'
  | TSlice e, TSlice e' => rtype_eqb e e'
  | TPtr e, TPtr e' => rtype_eqb e e'
  | TMap k e, TMap k' e' => rtype_eqb k k' && rtype_eqb e e'
  | TChan d e, TChan d' e' => bool_decide (d = d') && rtype_eqb e e'
  | TFunc s, TFunc s' => String.eqb s s'
  | TInterface s, TInterface s' => String.eqb s s'
  | TStruct fs, TStruct fs' =>
      (fix go (l l' : list (string * rtype)) : bool :=
         match l, l' with
         | [], [] => true
         | (n, t) :: r, (n', t') :: r' =>
             String.eqb n n' && rtype_eqb t t' && go r r'
         | _, _ => false
         end) fs fs'
  | _, _ => false
  end.

Definition kind_name (k : rkind) : string :=
  match k with
  | Invalid => "<nil>" | Bool => "bool"
  | Int => "int" | Int8 => "int8" | Int16 => "int16" | Int32 => "int32"
  | Int64 => "int64" | Uint => "uint" | Uint8 => "uint8"
  | Uint16 => "uint16" | Uint32 => "uint32" | Uint64 => "uint64"
  | Uintptr => "uintptr" | Float32 => "float32" | Float64 => "float64"
  | Complex64 => "complex64" | Complex128 => "complex128"
  | Array => "array" | Chan => "chan" | Func => "func"
  | Interface => "interface {}" | Map => "map" | Ptr => "ptr"
  | Slice => "slice" | String => "string" | Struct => "struct"
  | UnsafePointer => "unsafe.Pointer"
  end.

(** What [%T] prints for a type. *)
Fixpoint type_string (t : rtype) : string :=
  match t with
  | TBasic k => kind_name k
  | TNamed n _ => n
  | TArray n e =>
      "[" +:+ NilZero.string_of_uint (Nat.to_uint n) +:+ "]" +:+ type_string e
  | TSlice e => "[]" +:+ type_string e
  | TPtr e => "*" +:+ type_string e
  | TMap k e => "map[" +:+ type_string k +:+ "]" +:+ type_string e
  | TChan RecvDir e => "<-chan " +:+ type_string e
  | TChan SendDir e => "chan<- " +:+ type_string e
  | TChan BothDir e => "chan " +:+ type_string e
  | TFunc s => s
  | TInterface s => s
  | TStruct _ => "struct {...}"
  end.

(** ** Boxed values *)

Definition addr := positive.
Bind Scope positive_scope with addr.

(** A slice header: backing array, offset of the first element, length
    and capacity. *)
Record sliceHdr := SliceHdr
  { sl_arr : addr; sl_off : Z; sl_len : Z; sl_cap : Z }.

(** The interpreter's [value] is Go's [interface{}]: a dynamic type and
    a payload, or the nil interface [VNil].  The same datatype serves as
    [reflect.Value]: [reflect.ValueOf] of a box is the box itself, and
    [VNil] is the zero (invalid) [reflect.Value].  Floating-point
    payloads are kept as IEEE bit patterns.  [VIface] is a
    [reflect.Value] of kind Interface, which only arises as a struct
    field or array element; its payload is the boxed content.  [VHost]
    is a host object whose structure the interpreter never inspects (an
    error value, an iterator). *)
Inductive value :=
| VNil
| VBool (t : rtype) (b : bool)
| VInt (t : rtype) (n : Z)
| VFloat (t : rtype) (bits : Z)
| VComplex (t : rtype) (re im : Z)
| VString (t : rtype) (s : string)
| VPtr (t : rtype) (p : option addr)
| VUnsafe (t : rtype) (p : option addr)
| VSlice (t : rtype) (h : option sliceHdr)
| VMap (t : rtype) (m : option addr)
| VChan (t : rtype) (c : option addr)
| VFunc (t : rtype) (f : option addr)
| VArray (t : rtype) (elems : list value)
| VStruct (t : rtype) (fields : list value)
| VIface (t : rtype) (content : value)
| VHost (t : rtype) (repr : string)
| VTuple (vs : list value).

(** [tuple] is the interpreter's multi-value result. *)
Definition tuple := VTuple.

(** The dynamic type of a boxed value ([reflect.TypeOf]); [None] for the
    nil interface and for the interpreter-private tuple. *)
Definition Type_of (v : value) : option rtype :=
  match v with
  | VNil | VTuple _ => None
  | VBool t _ | VInt t _ | VFloat t _ | VComplex t _ _ | VString t _
  | VPtr t _ | VUnsafe t _ | VSlice t _ | VMap t _ | VChan t _
  | VFunc t _ | VArray t _ | VStruct t _ | VIface t _ | VHost t _ => Some t
  end.

(** [reflect.Value.Kind]. *)
Definition Kind (v : value) : rkind :=
  match v with
  | VNil => Invalid
  | VTuple _ => Slice
  | VBool t _ | VInt t _ | VFloat t _ | VComplex t _ _ | VString t _
  | VPtr t _ | VUnsafe t _ | VSlice t _ | VMap t _ | VChan t _
  | VFunc t _ | VArray t _ | VStruct t _ | VIface t _ | VHost t _ =>
      Kind_of t
  end.

(** What [%T] prints for a boxed value. *)
Definition pT (v : value) : string :=
  match Type_of v with
  | Some t => type_string t
  | None => match v with VNil => "<nil>" | _ => "gossa.tuple" end
  end.

(** ** Panics and results *)

(** The values the interpreter passes to Go's [panic]. *)
Inductive panicVal :=
| PExit (code : Z)                 (* exitPanic *)
| PTarget (v : value)              (* targetPanic{v} *)
| PNative (msg : string)           (* a runtime.Error raised by the host *)
| PRuntimeError (msg : string)     (* runtimeError, also a runtime.Error *)
| PPlainError (msg : string)       (* plainError *)
| PString (msg : string)           (* panic(fmt.Sprintf(...)) *)
| PValueError (msg : string)       (* *reflect.ValueError *)
| PError (msg : string).           (* any other error value *)

(** The outcome of a Go computation: a normal return, a panic that
    unwinds the stack, or the end of the process by [os.Exit]. *)
Inductive result (A : Type) :=
| Ok (a : A)
| Panic (p : panicVal)
| Halt (code : Z).
Arguments Ok {A} a.
Arguments Panic {A} p.
Arguments Halt {A} code.

Global Instance result_ret : MRet result := fun A a => Ok a.

Global Instance result_bind : MBind result := fun A B k r =>
  match r with
  | Ok a => k a
  | Panic p => Panic p
  | Halt c => Halt c
  end.

(** ** Sized integers *)

Definition intSize : Z := 64.

(** Bit width of an integer kind, [0] for the other kinds. *)
Definition bits (k : rkind) : Z :=
  match k with
  | Int8 | Uint8 => 8
  | Int16 | Uint16 => 16
  | Int32 | Uint32 => 32
  | Int64 | Uint64 => 64
  | Int | Uint | Uintptr => intSize
  | _ => 0
  end.

Definition is_signed (k : rkind) : bool :=
  match k with
  | Int | Int8 | Int16 | Int32 | Int64 => true
  | _ => false
  end.

Definition is_unsigned (k : rkind) : bool :=
  match k with
  | Uint | Uint8 | Uint16 | Uint32 | Uint64 | Uintptr => true
  | _ => false
  end.

(** Two's-complement wrap-around to [w] bits. *)
Definition wrapU (w n : Z) : Z := n mod 2 ^ w.
Definition wrapS (w n : Z) : Z :=
  (n + 2 ^ (w - 1)) mod 2 ^ w - 2 ^ (w - 1).

(** Conversion of an integer to the integer kind [k]. *)
Definition wrap (k : rkind) (n : Z) : Z :=
  if is_signed k then wrapS (bits k) n else wrapU (bits k) n.

(** The range invariant of an integer of kind [k]. *)
Definition in_range (k : rkind) (n : Z) : Prop :=
  if is_signed k then - 2 ^ (bits k - 1) <= n < 2 ^ (bits k - 1)
  else 0 <= n < 2 ^ bits k.

(** ** asInt, asUint64 *)

(** [asInt]: the cases of the type switch are the eleven predeclared
    integer types; everything else goes through [reflect]. *)
Definition asInt (x : value) : result Z :=
  match x with
  | VInt (TBasic Int) n => Ok n
  | VInt (TBasic (Int8 | Int16 | Int32 | Int64)) n => Ok (wrap Int n)
  | VInt (TBasic (Uint | Uint8 | Uint16 | Uint32 | Uint64 | Uintptr)) n =>
      Ok (wrap Int n)
  | _ =>
      match x with
      | VInt t n =>
          if is_signed (Kind_of t) || is_unsigned (Kind_of t)
          then Ok (wrap Int n)
          else Panic (PString ("cannot convert " +:+ pT x +:+ " to int"))
      | _ => Panic (PString ("cannot convert " +:+ pT x +:+ " to int"))
      end
  end.

Definition negative_shift : panicVal :=
  PRuntimeError "negative shift amount".

(** [asUint64]: a signed operand that is negative falls out of the
    switch to the final [panic(runtimeError("negative shift amount"))]. *)
Definition asUint64 (x : value) : result Z :=
  match x with
  | VInt (TBasic (Int | Int8 | Int16 | Int32 | Int64)) n =>
      if 0 <=? n then Ok (wrap Uint64 n) else Panic negative_shift
  | VInt (TBasic (Uint | Uint8 | Uint16 | Uint32 | Uintptr)) n =>
      Ok (wrap Uint64 n)
  | VInt (TBasic Uint64) n => Ok n
  | _ =>
      match x with
      | VInt t n =>
          if is_unsigned (Kind_of t) then Ok n
          else if is_signed (Kind_of t) then
            if 0 <=? n then Ok (wrap Uint64 n) else Panic negative_shift
          else Panic (PString ("cannot convert " +:+ pT x +:+ " to uint64"))
      | _ => Panic (PString ("cannot convert " +:+ pT x +:+ " to uint64"))
      end
  end.

(** ** Shifts *)

Definition is_integer (k : rkind) : bool := is_signed k || is_unsigned k.

(** Go's [x << y] and [x >> y] on an integer of kind [k], with [y] an
    unsigned count: the left shift wraps to the operand's width, the
    right shift is arithmetic on signed operands. *)
Definition shl (k : rkind) (n y : Z) : Z := wrap k (Z.shiftl n y).
Definition shr (k : rkind) (n y : Z) : Z := wrap k (Z.shiftr n y).

(** The [reflect] path of the shifts: [r.SetInt(vx.Int() << y)]
    computes in 64 bits and [SetInt]/[SetUint] truncates to the kind of
    the receiver. *)
Definition reflect_shift (op : rkind -> Z -> Z -> Z) (t : rtype) (n y : Z)
  : option value :=
  if is_signed (Kind_of t) then Some (VInt t (wrap (Kind_of t) (op Int64 n y)))
  else if is_unsigned (Kind_of t)
       then Some (VInt t (wrap (Kind_of t) (op Uint64 n y)))
       else None.

Definition zero_Value_Type : panicVal :=
  PValueError "reflect: call of reflect.Value.Type on zero Value".

Definition shift (op : rkind -> Z -> Z -> Z) (sym : string) (x _y : value)
  : result value :=
  y ← asUint64 _y;
  match x with
  | VInt (TBasic k) n =>
      if is_integer k then Ok (VInt (TBasic k) (op k n y))
      else Panic (PString ("invalid binary op: " +:+ pT x +:+ sym +:+ "uint64"))
  | VInt t n =>
      match reflect_shift op t n y with
      | Some r => Ok r
      | None =>
          Panic (PString ("invalid binary op: " +:+ pT x +:+ sym +:+ "uint64"))
      end
  | VNil => Panic zero_Value_Type
  | _ => Panic (PString ("invalid binary op: " +:+ pT x +:+ sym +:+ "uint64"))
  end.

Definition opSHL : value -> value -> result value := shift shl " << ".
Definition opSHR : value -> value -> result value := shift shr " >> ".

(** ** Zero values, unboxing, nil *)

Fixpoint struct_fields (t : rtype) : list (string * rtype) :=
  match t with
  | TNamed _ u => struct_fields u
  | TStruct fs => fs
  | _ => []
  end.

(** The zero value of type [t], computed along its underlying type [u]. *)
Fixpoint zero_at (t u : rtype) {struct u} : value :=
  match u with
  | TBasic k =>
      match k with
      | Bool => VBool t false
      | String => VString t EmptyString
      | Float32 | Float64 => VFloat t 0
      | Complex64 | Complex128 => VComplex t 0 0
      | UnsafePointer => VUnsafe t None
      | _ => if is_integer k then VInt t 0 else VNil
      end
  | TNamed _ u' => zero_at t u'
  | TArray n e => VArray t (repeat (zero_at e e) n)
  | TSlice _ => VSlice t None
  | TPtr _ => VPtr t None
  | TMap _ _ => VMap t None
  | TChan _ _ => VChan t None
  | TFunc _ => VFunc t None
  | TInterface _ => VIface t VNil
  | TStruct fs =>
      VStruct t
        ((fix go (l : list (string * rtype)) : list value :=
            match l with
            | [] => []
            | (_, ft) :: r => zero_at ft ft :: go r
            end) fs)
  end.

(** [reflect.Zero(t)], which is also [reflect.New(t).Elem()]. *)
Definition Zero (t : rtype) : value := zero_at t t.

(** [reflect.Value.Interface]: the content of an interface-kinded
    [reflect.Value], the box itself otherwise. *)
Definition Value_Interface (v : value) : value :=
  match v with
  | VIface _ c => c
  | _ => v
  end.

(** [reflect.Value.IsNil] on the kinds that admit it. *)
Definition Value_IsNil (v : value) : bool :=
  match v with
  | VPtr _ None | VUnsafe _ None | VSlice _ None | VMap _ None
  | VChan _ None | VFunc _ None | VIface _ VNil => true
  | _ => false
  end.

Definition IsNil (v : value) : bool :=
  match Kind v with
  | Invalid => true
  | Slice | Map | Func => Value_IsNil v
  | Chan | Ptr | UnsafePointer | Interface => Value_IsNil v
  | _ => false
  end.

(** The kinds of the typed nil constants. *)
Definition nilable (k : rkind) : bool :=
  match k with
  | Slice | Map | Func | Chan | Ptr | UnsafePointer => true
  | _ => false
  end.

(** A [TBasic] type has a basic kind (also under a name). *)
Fixpoint basic_ok (t : rtype) : bool :=
  match t with
  | TBasic k =>
      match k with
      | Bool | String | Float32 | Float64 | Complex64 | Complex128
      | UnsafePointer => true
      | _ => is_integer k
      end
  | TNamed _ u => basic_ok u
  | _ => true
  end.

(** ** Go's [==] on boxed values *)

Fixpoint comparable (t : rtype) : bool :=
  match t with
  | TBasic _ | TPtr _ | TChan _ _ | TInterface _ => true
  | TNamed _ u => comparable u
  | TArray _ e => comparable e
  | TSlice _ | TMap _ _ | TFunc _ => false
  | TStruct fs =>
      (fix go (l : list (string * rtype)) : bool :=
         match l with
         | [] => true
         | (_, ft) :: r => comparable ft && go r
         end) fs
  end.

Definition float_width (k : rkind) : Z :=
  match k with
  | Float32 | Complex64 => 32
  | _ => 64
  end.

Definition float_isNaN (w a : Z) : bool :=
  let e := if w =? 32 then 8 else 11 in
  let m := if w =? 32 then 23 else 52 in
  (Z.land (Z.shiftr a m) (2 ^ e - 1) =? 2 ^ e - 1)
  && negb (Z.land a (2 ^ m - 1) =? 0).

Definition float_isZero (w a : Z) : bool := Z.land a (2 ^ (w - 1) - 1) =? 0.

(** IEEE equality on bit patterns: a NaN differs from everything, the
    two zeros are equal. *)
Definition float_eq (w a b : Z) : bool :=
  negb (float_isNaN w a) && negb (float_isNaN w b)
  && ((a =? b) || (float_isZero w a && float_isZero w b)).

Definition uncomparable (t : rtype) : panicVal :=
  PNative ("runtime error: comparing uncomparable type " +:+ type_string t).

(** [val_eq x y] is [==] on two values of one comparable static type;
    an interface-typed component compares its dynamic contents, which
    panics when they share an uncomparable dynamic type. *)
Fixpoint val_eq (x y : value) {struct x} : result bool :=
  match x, y with
  | VBool _ a, VBool _ b => Ok (Bool.eqb a b)
  | VInt _ a, VInt _ b => Ok (a =? b)
  | VFloat t a, VFloat _ b => Ok (float_eq (float_width (Kind_of t)) a b)
  | VComplex t a a', VComplex _ b b' =>
      Ok (float_eq (float_width (Kind_of t)) a b
          && float_eq (float_width (Kind_of t)) a' b')
  | VString _ a, VString _ b => Ok (String.eqb a b)
  | VPtr _ a, VPtr _ b => Ok (bool_decide (a = b))
  | VUnsafe _ a, VUnsafe _ b => Ok (bool_decide (a = b))
  | VChan _ a, VChan _ b => Ok (bool_decide (a = b))
  | VHost _ a, VHost _ b => Ok (String.eqb a b)
  | VArray _ xs, VArray _ ys =>
      (fix go (l l' : list value) {struct l} : result bool :=
         match l, l' with
         | a :: r, b :: r' =>
             match val_eq a b with
             | Ok true => go r r'
             | other => other
             end
         | _, _ => Ok true
         end) xs ys
  | VStruct t xs, VStruct _ ys =>
      (fix go (fs : list (string * rtype)) (l l' : list value) {struct l}
         : result bool :=
         match fs, l, l' with
         | (name, _) :: fs', a :: r, b :: r' =>
             if String.eqb name "_" then go fs' r r'
             else match val_eq a b with
                  | Ok true => go fs' r r'
                  | other => other
                  end
         | _, _, _ => Ok true
         end) (struct_fields t) xs ys
  | VIface _ a, VIface _ b =>
      match a, b with
      | VNil, VNil => Ok true
      | VNil, _ | _, VNil => Ok false
      | _, _ =>
          match Type_of a, Type_of b with
          | Some ta, Some tb =>
              if rtype_eqb ta tb then
                if comparable ta then val_eq a b else Panic (uncomparable ta)
              else Ok false
          | None, None => Panic (uncomparable (TSlice (TInterface "value")))
          | _, _ => Ok false
          end
      end
  | _, _ => Ok false
  end.

(** [x == y] on two [interface{}] boxes. *)
Definition go_eq (x y : value) : result bool :=
  val_eq (VIface (TInterface "interface {}") x)
         (VIface (TInterface "interface {}") y).

(** ** Structural equality of the interpreter *)

(** [reflect.Value.Convert] between channel types, the only conversion
    [equalValue] performs. *)
Definition Convert_chan (v : value) (t : rtype) : result value :=
  match v with
  | VChan tv c =>
      match Elem_of tv, Elem_of t with
      | Some e, Some e' =>
          if rtype_eqb e e' then Ok (VChan t c)
          else Panic (PString ("reflect.Value.Convert: value of type "
                 +:+ type_string tv +:+ " cannot be converted to type "
                 +:+ type_string t))
      | _, _ => Panic (PString "reflect.Value.Convert: not a channel type")
      end
  | _ => Panic (PString "reflect.Value.Convert: not a channel")
  end.

(** [reflect.Value.Pointer] of a pointer: its address, [None] for nil. *)
Definition Value_Pointer (v : value) : option addr :=
  match v with
  | VPtr _ p => p
  | _ => None
  end.

Section Structural.
(** The recursive occurrence of [equalValue]. *)
Variable eqv : value -> value -> result bool.

Definition equalNil_with (vx vy : value) : result bool :=
  if IsNil vx then Ok (IsNil vy)
  else if IsNil vy then Ok (IsNil vx)
  else eqv vx vy.

(** The loop of [equalStruct] over the fields of the struct type. *)
Fixpoint equalFields (fs : list (string * rtype)) (xs ys : list value)
  {struct xs} : result bool :=
  match fs, xs, ys with
  | (name, ft) :: fs', fx :: xs', fy :: ys' =>
      if String.eqb name "_" then equalFields fs' xs' ys'
      else
        match
          match Kind_of ft with
          | Slice | Map | Func => go_eq (Value_Interface fx) (Value_Interface fy)
          | _ => Ok true
          end
        with
        | Ok true =>
            match equalNil_with fx fy with
            | Ok true => equalFields fs' xs' ys'
            | other => other
            end
        | other => other
        end
  | _, _, _ => Ok true
  end.

Definition equalStruct_with (vx vy : value) : result bool :=
  match vx, vy with
  | VStruct tx xs, VStruct ty ys =>
      if rtype_eqb tx ty then equalFields (struct_fields tx) xs ys
      else Ok false
  | VNil, _ | _, VNil => Panic zero_Value_Type
  | VStruct _ _, _ => Ok false
  | _, _ =>
      match Type_of vx, Type_of vy with
      | Some tx, Some ty =>
          if rtype_eqb tx ty
          then Panic (PString "reflect: NumField of non-struct type")
          else Ok false
      | _, _ => Ok false
      end
  end.

(** The loop of [equalArray] over the elements. *)
Fixpoint equalElems (xs ys : list value) {struct xs} : result bool :=
  match xs, ys with
  | fx :: xs', fy :: ys' =>
      match equalNil_with fx fy with
      | Ok true => equalElems xs' ys'
      | other => other
      end
  | _, _ => Ok true
  end.

Definition equalArray_with (vx vy : value) : result bool :=
  match vx, vy with
  | VArray tx xs, VArray ty ys =>
      if negb (length xs =? length ys)%nat then Ok false
      else
        match Elem_of tx, Elem_of ty with
        | Some ex, Some ey =>
            if rtype_eqb ex ey then equalElems xs ys else Ok false
        | _, _ => Ok false
        end
  | _, _ => Ok false
  end.
End Structural.

Fixpoint equalValue (vx vy : value) {struct vx} : result bool :=
  if bool_decide (Kind vx = Kind vy) then
    match Kind vx with
    | Invalid => Ok true
    | Chan =>
        match Type_of vx, Type_of vy with
        | Some tx, Some ty =>
            let dirx := ChanDir_of tx in
            let diry := ChanDir_of ty in
            if bool_decide (dirx = diry)
            then go_eq (Value_Interface vx) (Value_Interface vy)
            else if bool_decide (dirx = BothDir) then
              c ← Convert_chan vx ty; go_eq (Value_Interface vy) (Value_Interface c)
            else if bool_decide (diry = BothDir) then
              c ← Convert_chan vy tx; go_eq (Value_Interface vx) (Value_Interface c)
            else Ok false
        | _, _ => Ok false
        end
    | Ptr => Ok (bool_decide (Value_Pointer vx = Value_Pointer vy))
    | Struct => equalStruct_with equalValue vx vy
    | Array => equalArray_with equalValue vx vy
    | _ => go_eq (Value_Interface vx) (Value_Interface vy)
    end
  else Ok false.

Definition equalNil : value -> value -> result bool :=
  equalNil_with equalValue.
Definition equalStruct : value -> value -> result bool :=
  equalStruct_with equalValue.
Definition equalArray : value -> value -> result bool :=
  equalArray_with equalValue.

(** ** SSA values and constants *)

(** The [types.Type] of a constant: the untyped nil, or a type with its
    reflected counterpart ([Interp.preToType]); an untyped basic
    constant is given by its default type, as [basicValue] treats it. *)
Inductive ctype :=
| UntypedNil
| Typed (t : rtype).

(** The dynamic cases of [ssa.Value] that the interpreter tells apart.
    A constant is nil when its [Value] is nil; the box of a non-nil
    constant (the result of [basicValue], retagged for a named type) is
    carried by the constant. *)
Inductive ssaNode :=
| Const (typ : ctype) (val : option value)
| Global (pkg : option string) (name : string)
| Function_ (name : string) (has_blocks : bool) (typ : rtype)
    (nparams nfreevars : Z)
| Instr.

(** An [ssa.Value] is a pointer to a node. *)
Record ssaValue := SsaValue { sv_ptr : positive; sv_node : ssaNode }.

(** [constToValue]: a nil constant is the nil interface when its type
    is the untyped nil, the boxed zero value of its type otherwise (so
    the nil interface again for an interface type). *)
Definition constToValue (typ : ctype) (val : option value) : value :=
  match val with
  | None =>
      match typ with
      | UntypedNil => VNil
      | Typed t => Value_Interface (Zero t)
      end
  | Some v => v
  end.

Definition IsConstNil (v : ssaValue) : bool :=
  match sv_node v with
  | Const _ None => true
  | _ => false
  end.

Record BinOp := { BinOp_X : ssaValue; BinOp_Y : ssaValue }.

(** [opEQL]: unequal kinds are unequal; a nil constant on either side
    reduces the comparison to [IsNil] of the other side. *)
Definition opEQL (instr : BinOp) (x y : value) : result bool :=
  let vx := x in
  let vy := y in
  if negb (bool_decide (Kind vx = Kind vy)) then Ok false
  else if IsConstNil (BinOp_X instr) then Ok (IsNil vy)
  else if IsConstNil (BinOp_Y instr) then Ok (IsNil vx)
  else equalValue vx vy.

(** *** Sample comparisons with nil *)

Definition nil_of (t : rtype) : ssaValue :=
  {| sv_ptr := 1%positive; sv_node := Const (Typed t) None |}.

Definition an_operand : ssaValue := {| sv_ptr := 2%positive; sv_node := Instr |}.

(** [e == nil] for [var p *int; var e interface{} = p]. *)
Definition iface_eq_nil : BinOp :=
  {| BinOp_X := an_operand; BinOp_Y := nil_of (TInterface "interface {}") |}.

(** ** Interpreter state *)

(** [Mode] bits. *)
Definition DisableRecover : Z := 1.
Definition DisableCustomBuiltin : Z := 2.
Definition EnableDumpImports : Z := 4.
Definition EnableDumpInstr : Z := 8.
Definition EnableTracing : Z := 16.
Definition EnablePrintAny : Z := 32.

(** [Register] is a [uint32]: the high byte is the kind, the low 24 bits
    the index. *)
Abbreviation Register := Z (only parsing).

Inductive kind := kindInvalid | kindConst | kindGlobal | kindFunction.

Definition kind_code (k : kind) : Z :=
  match k with
  | kindInvalid => 0
  | kindConst => 1
  | kindGlobal => 2
  | kindFunction => 3
  end.

Definition isStatic (k : Z) : bool :=
  (k =? kind_code kindConst) || (k =? kind_code kindGlobal)
  || (k =? kind_code kindFunction).

Definition Register_Kind (i : Register) : Z := Z.shiftr i 24.
Definition Register_Index (i : Register) : Z := Z.land i 16777215.

(** The dynamic cases of the [fn value] of a call, as [Interp.call]
    switches on them. *)
Inductive callee :=
| FnFunction (fn : positive)
| FnClosure (pfn : addr) (env : list value)
| FnBuiltin (name : string)
| FnExternal (v : value).

(** A deferred call; the [tail] pointer is the rest of the list that
    holds it. *)
Record deferred := Deferred
  { d_fn : callee; d_args : list value; d_ssaArgs : list ssaValue;
    d_instr : positive }.

Record frame := Frame
  { fr_caller : option addr;
    fr_pfn : addr;
    fr_defers : list deferred;
    fr_panicking : option panicVal;
    fr_pc : Z;
    fr_deferid : Z;
    fr_stack : list value;
    fr_results : list Register }.

Record Function := MkFunction
  { f_Fn : positive;
    f_stackIndex : gmap positive Register;
    f_nstack : Z;
    f_narg : Z;
    f_nenv : Z }.

Record Interp := MkInterp
  { i_mode : Z;
    i_members : gmap string positive;
    i_installed : gmap string (gmap string value);
    i_globals : gmap positive value;
    i_stack : list value;
    i_stackIndex : gmap positive Register;
    i_funcs : gmap positive addr;
    i_deferCount : Z;
    i_deferMap : gmap Z addr;
    i_exited : bool }.

(** The whole store: the interpreter, the frames and compiled functions
    by address, the pointees of pointers and the backing arrays of
    slices, and the contents of maps (in insertion order). *)
Record world := World
  { w_interp : Interp;
    w_frames : gmap addr frame;
    w_functions : gmap addr Function;
    w_heap : gmap addr value;
    w_maps : gmap addr (list (value * value)) }.

Definition set_interp (i : Interp) (w : world) : world :=
  {| w_interp := i; w_frames := w_frames w; w_functions := w_functions w;
     w_heap := w_heap w; w_maps := w_maps w |}.

Definition set_frame (a : addr) (f : frame) (w : world) : world :=
  {| w_interp := w_interp w; w_frames := <[a := f]> (w_frames w);
     w_functions := w_functions w; w_heap := w_heap w; w_maps := w_maps w |}.

Definition set_function (a : addr) (f : Function) (w : world) : world :=
  {| w_interp := w_interp w; w_frames := w_frames w;
     w_functions := <[a := f]> (w_functions w);
     w_heap := w_heap w; w_maps := w_maps w |}.

(** *** The monad of interpreter steps: state, and Go panics *)

Definition M (A : Type) : Type := world -> result A * world.

Global Instance M_ret : MRet M := fun A a w => (Ok a, w).

Global Instance M_bind : MBind M := fun A B k m w =>
  match m w with
  | (Ok a, w') => k a w'
  | (Panic p, w') => (Panic p, w')
  | (Halt c, w') => (Halt c, w')
  end.

Definition mk {A} (f : world -> result A * world) : M A := f.

Definition go_panic {A} (p : panicVal) : M A := fun w => (Panic p, w).

Definition lift {A} (r : result A) : M A := fun w => (r, w).

Definition nil_deref : panicVal :=
  PNative "runtime error: invalid memory address or nil pointer dereference".

Definition index_out_of_range : panicVal :=
  PNative "runtime error: index out of range".

(** Reading a frame through its pointer. *)
Definition the_frame (fr : addr) : M frame := fun w =>
  match w_frames w !! fr with
  | Some f => (Ok f, w)
  | None => (Panic nil_deref, w)
  end.

(** [Register.Get]: a frame-local register indexes [fr.stack], a static
    one [fr.interp.stack]. *)
Definition Register_Get (i : Register) (fr : addr) : M value :=
  f ← the_frame fr;
  mk (fun w =>
    let slots := if Z.shiftr i 24 =? 0 then fr_stack f
                 else i_stack (w_interp w) in
    let n := if Z.shiftr i 24 =? 0 then i else Z.land i 16777215 in
    match slots !! Z.to_nat n with
    | Some v => (Ok v, w)
    | None => (Panic index_out_of_range, w)
    end).

Definition set_fr_stack (s : list value) (f : frame) : frame :=
  {| fr_caller := fr_caller f; fr_pfn := fr_pfn f; fr_defers := fr_defers f;
     fr_panicking := fr_panicking f; fr_pc := fr_pc f;
     fr_deferid := fr_deferid f; fr_stack := s;
     fr_results := fr_results f |}.

Definition set_i_stack (s : list value) (i : Interp) : Interp :=
  {| i_mode := i_mode i; i_members := i_members i;
     i_installed := i_installed i; i_globals := i_globals i;
     i_stack := s; i_stackIndex := i_stackIndex i; i_funcs := i_funcs i;
     i_deferCount := i_deferCount i; i_deferMap := i_deferMap i;
     i_exited := i_exited i |}.

(** [Register.Set]. *)
Definition Register_Set (i : Register) (fr : addr) (v : value) : M unit :=
  f ← the_frame fr;
  mk (fun w =>
    if Z.shiftr i 24 =? 0 then
      if (Z.to_nat i <? length (fr_stack f))%nat then
        (Ok tt, set_frame fr (set_fr_stack (<[Z.to_nat i := v]> (fr_stack f)) f) w)
      else (Panic index_out_of_range, w)
    else
      let n := Z.to_nat (Z.land i 16777215) in
      if (n <? length (i_stack (w_interp w)))%nat then
        (Ok tt, set_interp (set_i_stack (<[n := v]> (i_stack (w_interp w)))
                              (w_interp w)) w)
      else (Panic index_out_of_range, w)).

Definition reg (fr : addr) (index : Register) : M value :=
  Register_Get index fr.

Definition setReg (fr : addr) (index : Register) (v : value) : M unit :=
  Register_Set index fr v.

(** ** The Slice instruction *)

(** What [%v] prints for an [int]. *)
Definition pv (n : Z) : string := NilZero.string_of_int (Z.to_int n).

Record SliceInstr := MkSlice
  { Slice_X : ssaValue;
    Slice_Low : option ssaValue;
    Slice_High : option ssaValue;
    Slice_Max : option ssaValue }.

(** A [reflect.Value] together with the address it lives at, when it
    was reached through a pointer (and so is addressable). *)
Definition located : Type := value * option addr.

(** [if v.Kind() == reflect.Ptr { v = v.Elem() }]: the element of a nil
    pointer is the zero [reflect.Value]. *)
Definition Elem_if_Ptr (x : value) (w : world) : located :=
  match Kind x with
  | Ptr =>
      match x with
      | VPtr _ (Some a) =>
          match w_heap w !! a with
          | Some v => (v, Some a)
          | None => (VNil, None)
          end
      | _ => (VNil, None)
      end
  | _ => (x, None)
  end.

Definition Value_Len (v : value) : Z :=
  match v with
  | VString _ s => Z.of_nat (String.length s)
  | VSlice _ (Some h) => sl_len h
  | VArray _ elems => Z.of_nat (length elems)
  | VTuple vs => Z.of_nat (length vs)
  | _ => 0
  end.

Definition Value_Cap (v : value) : Z :=
  match v with
  | VSlice _ (Some h) => sl_cap h
  | VArray _ elems => Z.of_nat (length elems)
  | VTuple vs => Z.of_nat (length vs)
  | _ => 0
  end.

(** The view [base[i:j:k]] of a buffer of capacity [cap]; as in
    [reflect], the data pointer is only advanced when the view keeps
    some capacity. *)
Definition view (arr : addr) (off i j k : Z) : sliceHdr :=
  {| sl_arr := arr; sl_off := if 0 <? k - i then off + i else off;
     sl_len := j - i; sl_cap := k - i |}.

(** [reflect.Value.Slice3]. *)
Definition Value_Slice3 (v : located) (i j k : Z) : result value :=
  let oob := PString "reflect.Value.Slice3: slice index out of bounds" in
  match v with
  | (VArray t elems, Some a) =>
      if (i <? 0) || (j <? i) || (k <? j) || (Z.of_nat (length elems) <? k)
      then Panic oob
      else Ok (VSlice (TSlice (default t (Elem_of t))) (Some (view a 0 i j k)))
  | (VArray _ _, None) =>
      Panic (PString "reflect.Value.Slice3: slice of unaddressable array")
  | (VSlice t (Some h), _) =>
      if (i <? 0) || (j <? i) || (k <? j) || (sl_cap h <? k) then Panic oob
      else Ok (VSlice t (Some (view (sl_arr h) (sl_off h) i j k)))
  | (VSlice t None, _) =>
      if (i <? 0) || (j <? i) || (k <? j) || (0 <? k) then Panic oob
      else Ok (VSlice t None)
  | _ => Panic (PValueError "reflect: call of reflect.Value.Slice3")
  end.

(** [reflect.Value.Slice]: a substring of a string, [v[i:j:cap]] of a
    slice or an addressable array. *)
Definition Value_Slice (v : located) (i j : Z) : result value :=
  match v with
  | (VString t s, _) =>
      if (i <? 0) || (j <? i) || (Z.of_nat (String.length s) <? j)
      then Panic (PString
                    "reflect.Value.Slice: string slice index out of bounds")
      else Ok (VString t (substring (Z.to_nat i) (Z.to_nat (j - i)) s))
  | (VSlice _ _, _) | (VArray _ _, _) =>
      if (i <? 0) || (j <? i) || (Value_Cap (fst v) <? j)
      then Panic (PString "reflect.Value.Slice: slice index out of bounds")
      else Value_Slice3 v i j (Value_Cap (fst v))
  | _ => Panic (PValueError "reflect: call of reflect.Value.Slice")
  end.

Definition out_of_range (s : string) : panicVal :=
  PRuntimeError ("slice bounds out of range " +:+ s).

(** The bounds checks of [slice]; [None] when they all pass. *)
Definition slice_check (makesliceCheck slice3 : bool) (kind : rkind)
    (lo hi max Cap : Z) : option panicVal :=
  if makesliceCheck then
    if hi <? 0 then Some (PRuntimeError "makeslice: len out of range")
    else if max <? hi then Some (PRuntimeError "makeslice: cap out of range")
    else None
  else if slice3 then
    if max <? 0 then Some (out_of_range ("[::" +:+ pv max +:+ "]"))
    else if Cap <? max then
      if bool_decide (kind = Slice)
      then Some (out_of_range
                   ("[::" +:+ pv max +:+ "] with capacity " +:+ pv Cap))
      else Some (out_of_range
                   ("[::" +:+ pv max +:+ "] with length " +:+ pv Cap))
    else if hi <? 0 then Some (out_of_range ("[:" +:+ pv hi +:+ ":]"))
    else if max <? hi
      then Some (out_of_range ("[:" +:+ pv hi +:+ ":" +:+ pv max +:+ "]"))
    else if lo <? 0 then Some (out_of_range ("[" +:+ pv lo +:+ "::]"))
    else if hi <? lo
      then Some (out_of_range ("[" +:+ pv lo +:+ ":" +:+ pv hi +:+ ":]"))
    else None
  else
    if hi <? 0 then Some (out_of_range ("[:" +:+ pv hi +:+ "]"))
    else if Cap <? hi then
      if bool_decide (kind = Slice)
      then Some (out_of_range
                   ("[:" +:+ pv hi +:+ "] with capacity " +:+ pv Cap))
      else Some (out_of_range
                   ("[:" +:+ pv hi +:+ "] with length " +:+ pv Cap))
    else if lo <? 0 then Some (out_of_range ("[" +:+ pv lo +:+ ":]"))
    else if hi <? lo
      then Some (out_of_range ("[" +:+ pv lo +:+ ":" +:+ pv hi +:+ "]"))
    else None.

(** An optional index operand: its default, or [asInt(fr.reg(i))]. *)
Definition index_operand (fr : addr) (o : option ssaValue) (i : Register)
    (dflt : Z) : M Z :=
  match o with
  | None => mret dflt
  | Some _ => x ← reg fr i; lift (asInt x)
  end.

(** [Len] and [Cap] of the operand, by kind. *)
Definition slice_Len (v : located) : Z :=
  match Kind (fst v) with
  | String | Slice | Array => Value_Len (fst v)
  | _ => 0
  end.

Definition slice_Cap (v : located) : Z :=
  match Kind (fst v) with
  | String => Value_Len (fst v)
  | Slice | Array => Value_Cap (fst v)
  | _ => 0
  end.

(** The final switch of [slice], once the bounds are checked. *)
Definition slice_view (x : value) (v : located) (lo hi max : Z)
  : result value :=
  match Kind (fst v) with
  | String =>
      (* optimization x[len(x):] *)
      if lo =? hi then Value_Slice v 0 0 else Value_Slice v lo hi
  | Slice | Array => Value_Slice3 v lo hi max
  | _ => Panic (PString ("slice: unexpected X type: " +:+ pT x))
  end.

(** [slice] returns [x[lo:hi:max]]. *)
Definition slice (fr : addr) (instr : SliceInstr) (makesliceCheck : bool)
    (ix ih il im : Register) : M value :=
  x ← reg fr ix;
  mk (fun w =>
    let v := Elem_if_Ptr x w in
    let kind := Kind (fst v) in
    let Len := slice_Len v in
    let Cap := slice_Cap v in
    (lo ← index_operand fr (Slice_Low instr) il 0;
     hi ← index_operand fr (Slice_High instr) ih Len;
     max ← index_operand fr (Slice_Max instr) im Cap;
     let slice3 := bool_decide (is_Some (Slice_Max instr)) in
     match slice_check makesliceCheck slice3 kind lo hi max Cap with
     | Some p => go_panic p
     | None => lift (slice_view x v lo hi max)
     end) w).

(** *** Sample frames and operands *)

Definition empty_interp : Interp :=
  {| i_mode := 0; i_members := ∅; i_installed := ∅; i_globals := ∅;
     i_stack := [];
     i_stackIndex := ∅; i_funcs := ∅; i_deferCount := 0; i_deferMap := ∅;
     i_exited := false |}.

Definition frame_of (caller : option addr) (stack : list value) : frame :=
  {| fr_caller := caller; fr_pfn := 1%positive; fr_defers := [];
     fr_panicking := None; fr_pc := 0; fr_deferid := 0; fr_stack := stack;
     fr_results := [] |}.

Definition ints : rtype := TSlice (TBasic Int).

(** A frame at address 1 whose slots hold [x] and the integer [n]; the
    array [[10, 20, 30, 40]] lives at address 7. *)
Definition slice_world (x : value) (n : Z) : world :=
  {| w_interp := empty_interp;
     w_frames := {[ 1%positive := frame_of None [x; VInt (TBasic Int) n] ]};
     w_functions := ∅;
     w_heap := {[ 7%positive :=
                  VArray (TArray 4 (TBasic Int))
                    (map (VInt (TBasic Int)) [10; 20; 30; 40]) ]};
     w_maps := ∅ |}.

(** [x[n:]] with [x] in slot 0 and [n] in slot 1. *)
Definition from_low : SliceInstr :=
  {| Slice_X := an_operand; Slice_Low := Some an_operand;
     Slice_High := None; Slice_Max := None |}.

Definition two_of_four : value :=
  VSlice ints (Some {| sl_arr := 7; sl_off := 0; sl_len := 2; sl_cap := 4 |}).

(** ** Register assignment *)

Definition set_i_index (s : list value) (ix : gmap positive Register)
    (i : Interp) : Interp :=
  {| i_mode := i_mode i; i_members := i_members i;
     i_installed := i_installed i; i_globals := i_globals i;
     i_stack := s; i_stackIndex := ix; i_funcs := i_funcs i;
     i_deferCount := i_deferCount i; i_deferMap := i_deferMap i;
     i_exited := i_exited i |}.

Definition set_i_funcs (fs : gmap positive addr) (i : Interp) : Interp :=
  {| i_mode := i_mode i; i_members := i_members i;
     i_installed := i_installed i; i_globals := i_globals i;
     i_stack := i_stack i; i_stackIndex := i_stackIndex i; i_funcs := fs;
     i_deferCount := i_deferCount i; i_deferMap := i_deferMap i;
     i_exited := i_exited i |}.

Definition set_f_index (ix : gmap positive Register) (n : Z) (f : Function)
  : Function :=
  {| f_Fn := f_Fn f; f_stackIndex := ix; f_nstack := n;
     f_narg := f_narg f; f_nenv := f_nenv f |}.

Definition the_function (p : addr) : M Function := fun w =>
  match w_functions w !! p with
  | Some f => (Ok f, w)
  | None => (Panic nil_deref, w)
  end.

Definition globalToValue (i : Interp) (key : ssaValue) : value * bool :=
  let own :=
    match i_globals i !! sv_ptr key with
    | Some v => (v, true)
    | None => (VNil, false)
    end in
  match sv_node key with
  | Global (Some pkgpath) name =>
      match i_installed i !! pkgpath with
      | Some vars =>
          match vars !! name with
          | Some ext => (ext, true)
          | None => own
          end
      | None => own
      end
  | _ => own
  end.

(** [Interp.loadFunction]: the compiled function of [fn], created and
    cached on first use. *)
Definition loadFunction (fn : ssaValue) : M addr := fun w =>
  match i_funcs (w_interp w) !! sv_ptr fn with
  | Some pfn => (Ok pfn, w)
  | None =>
      match sv_node fn with
      | Function_ _ true _ nparams nfreevars =>
          let a := fresh (dom (w_functions w)) in
          let pfn := {| f_Fn := sv_ptr fn; f_stackIndex := ∅; f_nstack := 0;
                        f_narg := nparams; f_nenv := nfreevars |} in
          (Ok a,
           set_interp
             (set_i_funcs (<[sv_ptr fn := a]> (i_funcs (w_interp w)))
                (w_interp w))
             (set_function a pfn w))
      | _ => (Panic index_out_of_range, w)
      end
  end.

(** [Interp.makeFunc(typ, pfn, nil).Interface()]: a function value
    bound to the compiled function. *)
Definition makeFunc (typ : rtype) (pfn : addr) : value := VFunc typ (Some pfn).

(** The switch of [regIndex] on the dynamic type of [v]: the value to
    admit to the static stack and its kind, [kindInvalid] for a value
    that gets a frame-local slot. *)
Definition static_value (v : ssaValue) : M (value * kind) :=
  match sv_node v with
  | Const typ val => mret (constToValue typ val, kindConst)
  | Global _ _ =>
      mk (fun w => (Ok (fst (globalToValue (w_interp w) v), kindGlobal), w))
  | Function_ _ true typ _ _ =>
      pfn ← loadFunction v;
      mret (makeFunc typ pfn, kindFunction)
  | _ => mret (VNil, kindInvalid)
  end.

Definition uint32 (n : Z) : Z := wrapU 32 n.

Definition regIndex (p : addr) (v : ssaValue) : M Register :=
  pf ← the_function p;
  mk (fun w =>
    match i_stackIndex (w_interp w) !! sv_ptr v with
    | Some i => (Ok i, w)
    | None =>
        match f_stackIndex pf !! sv_ptr v with
        | Some i => (Ok i, w)
        | None =>
            ('(vs, vk) ← static_value v;
             mk (fun w =>
               if negb (kind_code vk =? 0) then
                 let i := w_interp w in
                 let reg :=
                   uint32 (Z.lor (Z.of_nat (length (i_stack i)))
                             (Z.shiftl (kind_code vk) 24)) in
                 (Ok reg,
                  set_interp
                    (set_i_index (i_stack i ++ [vs])
                       (<[sv_ptr v := reg]> (i_stackIndex i)) i) w)
               else
                 let reg := uint32 (f_nstack pf) in
                 (Ok reg,
                  set_function p
                    (set_f_index (<[sv_ptr v := reg]> (f_stackIndex pf))
                       (f_nstack pf + 1) pf) w))) w
        end
    end).

(** *** Registers already assigned *)

(** [v] already has register [r] for the function [p]: in the
    interpreter-wide index, or else in the index of [p]. *)
Definition hit (p : addr) (v : ssaValue) (r : Register) (w : world) : Prop :=
  exists pf, w_functions w !! p = Some pf /\
    (i_stackIndex (w_interp w) !! sv_ptr v = Some r \/
     (i_stackIndex (w_interp w) !! sv_ptr v = None /\
      f_stackIndex pf !! sv_ptr v = Some r)).

(** The calls [regIndex(v1)], [regIndex(v2)], ... made in turn while
    compiling [p]. *)
Definition regIndex_all (p : addr) (vs : list ssaValue) (w : world) : world :=
  fold_left (fun w v => snd (regIndex p v w)) vs w.

Definition compile_world : world :=
  {| w_interp := empty_interp; w_frames := ∅;
     w_functions := {[ 1%positive :=
       {| f_Fn := 9%positive; f_stackIndex := ∅; f_nstack := 0;
          f_narg := 0; f_nenv := 0 |} ]};
     w_heap := ∅; w_maps := ∅ |}.

Definition const_seven : ssaValue :=
  {| sv_ptr := 20; sv_node := Const (Typed (TBasic Int))
                                (Some (VInt (TBasic Int) 7)) |}.

Definition a_param : ssaValue := {| sv_ptr := 21; sv_node := Instr |}.
Definition a_local : ssaValue := {| sv_ptr := 22; sv_node := Instr |}.

(** ** Deferred calls, panics and recover *)

Definition set_fr_defers (ds : list deferred) (f : frame) : frame :=
  {| fr_caller := fr_caller f; fr_pfn := fr_pfn f; fr_defers := ds;
     fr_panicking := fr_panicking f; fr_pc := fr_pc f;
     fr_deferid := fr_deferid f; fr_stack := fr_stack f;
     fr_results := fr_results f |}.

Definition set_fr_panicking (p : option panicVal) (f : frame) : frame :=
  {| fr_caller := fr_caller f; fr_pfn := fr_pfn f; fr_defers := fr_defers f;
     fr_panicking := p; fr_pc := fr_pc f;
     fr_deferid := fr_deferid f; fr_stack := fr_stack f;
     fr_results := fr_results f |}.

Definition set_fr_deferid (id : Z) (f : frame) : frame :=
  {| fr_caller := fr_caller f; fr_pfn := fr_pfn f; fr_defers := fr_defers f;
     fr_panicking := fr_panicking f; fr_pc := fr_pc f;
     fr_deferid := id; fr_stack := fr_stack f;
     fr_results := fr_results f |}.

Definition set_i_defer (n : Z) (m : gmap Z addr) (i : Interp) : Interp :=
  {| i_mode := i_mode i; i_members := i_members i;
     i_installed := i_installed i; i_globals := i_globals i;
     i_stack := i_stack i; i_stackIndex := i_stackIndex i;
     i_funcs := i_funcs i; i_deferCount := n; i_deferMap := m;
     i_exited := i_exited i |}.

(** Updating a frame in place through its pointer. *)
Definition update_frame (fr : addr) (g : frame -> frame) : M unit :=
  f ← the_frame fr; mk (fun w => (Ok tt, set_frame fr (g f) w)).

Definition update_interp (g : Interp -> Interp) : M unit :=
  fun w => (Ok tt, set_interp (g (w_interp w)) w).

(** *** recover *)

Definition runtimeError_t : rtype := TNamed "gossa.runtimeError" (TBasic String).
Definition plainError_t : rtype := TNamed "gossa.plainError" (TBasic String).
Definition runtime_Error_t : rtype := TNamed "runtime.Error" (TStruct []).
Definition ValueError_t : rtype :=
  TPtr (TNamed "reflect.ValueError" (TStruct [])).

(** The type switch of [doRecover] on the panic value: what [recover()]
    hands to the program, [None] in the default case. *)
Definition recovered (p : panicVal) : option value :=
  match p with
  | PTarget v => Some v
  | PNative msg => Some (VHost runtime_Error_t msg)
  | PRuntimeError msg => Some (VString runtimeError_t msg)
  | PString msg => Some (VString (TBasic String) msg)
  | PPlainError msg => Some (VString plainError_t msg)
  | PValueError msg => Some (VHost ValueError_t msg)
  | PExit _ | PError _ => None
  end.

Definition panic_type (p : panicVal) : string :=
  match p with
  | PExit _ => "gossa.exitPanic"
  | PTarget _ => "gossa.targetPanic"
  | PNative _ => "runtime.Error"
  | PRuntimeError _ => "gossa.runtimeError"
  | PPlainError _ => "gossa.plainError"
  | PString _ => "string"
  | PValueError _ => "*reflect.ValueError"
  | PError _ => "*errors.errorString"
  end.

(** [doRecover] implements the [recover()] built-in.  The mode is read
    through [caller.interp] before [caller] is compared with nil. *)
Definition doRecover (caller : option addr) : M value := fun w =>
  match caller with
  | None => (Panic nil_deref, w)
  | Some c =>
      match w_frames w !! c with
      | None => (Panic nil_deref, w)
      | Some fc =>
          if (Z.land (i_mode (w_interp w)) DisableRecover =? 0)
             && bool_decide (fr_panicking fc = None)
          then
            match fr_caller fc with
            | None => (Ok VNil, w)
            | Some cc =>
                match w_frames w !! cc with
                | None => (Panic nil_deref, w)
                | Some fcc =>
                    match fr_panicking fcc with
                    | None => (Ok VNil, w)
                    | Some p =>
                        let w' := set_frame cc (set_fr_panicking None fcc) w in
                        match recovered p with
                        | Some v => (Ok v, w')
                        | None =>
                            (Panic (PString
                               ("unexpected panic type " +:+ panic_type p
                                +:+ " in target call to recover()")), w')
                        end
                    end
                end
            end
          else (Ok VNil, w)
      end
  end.

(** A panicking frame at address 1 and, at address 2, the frame of a
    call deferred by it. *)
Definition recover_world (mode : Z) (p : panicVal) : world :=
  {| w_interp := set_i_defer 1 {[ 0 := 1%positive ]}
                   {| i_mode := mode; i_members := ∅; i_installed := ∅;
                      i_globals := ∅; i_stack := []; i_stackIndex := ∅;
                      i_funcs := ∅; i_deferCount := 0; i_deferMap := ∅;
                      i_exited := false |};
     w_frames := {[ 1%positive := set_fr_panicking (Some p) (frame_of None []);
                    2%positive := frame_of (Some 1%positive) [] ]};
     w_functions := ∅; w_heap := ∅; w_maps := ∅ |}.

Definition panicking_of (fr : addr) (w : world) : option panicVal :=
  f ← w_frames w !! fr; fr_panicking f.

(** *** Calls, deferred calls *)

Record CallCommon := MkCall
  { Call_Value : ssaValue; Call_Args : list ssaValue;
    Call_Method : option string }.

Record DeferInstr := MkDefer { Defer_ptr : positive; Defer_Call : CallCommon }.

Fixpoint forM_ {A} (l : list A) (k : A -> M unit) : M unit :=
  match l with
  | [] => mret tt
  | a :: r => _ ← k a; forM_ r k
  end.

Definition int32 (n : Z) : Z := wrap Int32 n.

Section Calls.
(** [goid.Get()] in the running goroutine. *)
Variable goid : Z.

(** The execution of interpreted functions, of native functions and of
    the built-ins with an effect on the program's data is not
    unfolded: any behaviour is allowed for them. *)
Variable callFunctionDiscardsResult :
  option addr -> addr -> list value -> list value -> M unit.
Variable callExternalDiscardsResult :
  option addr -> value -> list value -> M unit.
Variable effectBuiltin :
  option addr -> string -> list value -> list ssaValue -> M unit.

(** [Interp.prepareCall]: the callee and the argument values of a
    call site, read from the registers of the frame. *)
Variable prepareCall :
  addr -> CallCommon -> Register -> list Register -> list Register ->
  M (callee * list value).

Definition discards_result (fnName : string) : bool :=
  bool_decide (fnName ∈ ["append"; "len"; "cap"; "real"; "imag";
                          "complex"; "Add"; "Slice"]).

Definition has_effect (fnName : string) : bool :=
  bool_decide (fnName ∈ ["copy"; "close"; "delete"; "print"; "println";
                          "ssa:wrapnilchk"]).

Definition callBuiltinDiscardsResult (caller : option addr)
    (fnName : string) (args : list value) (ssaArgs : list ssaValue)
  : M unit :=
  if discards_result fnName
  then go_panic (PString ("discards result of " +:+ fnName))
  else if String.eqb fnName "panic" then
    match args with
    | a :: _ => go_panic (PTarget a)
    | [] => go_panic index_out_of_range
    end
  else if String.eqb fnName "recover" then
    _ ← doRecover caller; mret tt
  else if has_effect fnName
  then effectBuiltin caller fnName args ssaArgs
  else go_panic (PString ("unknown built-in: " +:+ fnName)).

Definition callDiscardsResult (caller : option addr) (fn : callee)
    (args : list value) (ssaArgs : list ssaValue) : M unit :=
  match fn with
  | FnFunction f =>
      mk (fun w =>
        match i_funcs (w_interp w) !! f with
        | Some pfn => callFunctionDiscardsResult caller pfn args [] w
        | None => (Panic nil_deref, w)
        end)
  | FnClosure pfn env => callFunctionDiscardsResult caller pfn args env
  | FnBuiltin name => callBuiltinDiscardsResult caller name args ssaArgs
  | FnExternal v => callExternalDiscardsResult caller v args
  end.

(** [runDefer] runs a deferred call [d].  It always returns normally,
    but may set [fr.panicking]. *)
Definition runDefer (fr : addr) (d : deferred) : M unit := fun w =>
  match callDiscardsResult (Some fr) (d_fn d) (d_args d) (d_ssaArgs d) w with
  | (Ok _, w') => (Ok tt, w')
  | (Panic p, w') => update_frame fr (set_fr_panicking (Some p)) w'
  | (Halt c, w') => (Halt c, w')
  end.

(** The bookkeeping of [runDefers] before its loop; it returns the
    head of the chain, [fr.defers]. *)
Definition enter_defers (fr : addr) : M (list deferred) :=
  _ ← update_interp (fun i =>
        set_i_defer (int32 (i_deferCount i + 1)) (i_deferMap i) i);
  _ ← update_frame fr (set_fr_deferid goid);
  f ← the_frame fr;
  _ ← update_interp (fun i =>
        set_i_defer (i_deferCount i) (<[fr_deferid f := fr]> (i_deferMap i)) i);
  mret (fr_defers f).

(** ... and after it: a panic that is still recorded is raised again. *)
Definition leave_defers (fr : addr) : M unit :=
  f ← the_frame fr;
  _ ← update_interp (fun i =>
        set_i_defer (i_deferCount i) (delete (fr_deferid f) (i_deferMap i)) i);
  _ ← update_interp (fun i =>
        set_i_defer (int32 (i_deferCount i - 1)) (i_deferMap i) i);
  _ ← update_frame fr (set_fr_deferid 0);
  f' ← the_frame fr;
  match fr_panicking f' with
  | Some p => go_panic p
  | None => mret tt
  end.

(** [runDefers] executes [fr]'s deferred calls, from the head of the
    chain to its tail. *)
Definition runDefers (fr : addr) : M unit :=
  ds ← enter_defers fr;
  _ ← forM_ ds (runDefer fr);
  leave_defers fr.

(** The step of an [*ssa.Defer] instruction. *)
Definition Defer_step (instr : DeferInstr) (iv : Register)
    (ia ib : list Register) (fr : addr) : M unit :=
  '(fn, args) ← prepareCall fr (Defer_Call instr) iv ia ib;
  update_frame fr (fun f =>
    set_fr_defers
      ({| d_fn := fn; d_args := args;
          d_ssaArgs := Call_Args (Defer_Call instr);
          d_instr := Defer_ptr instr |} :: fr_defers f) f).

End Calls.

(** The part of the handler of [frame.run] that deals with a panic [p]
    of a step: record it, then run the deferred calls. *)
Definition on_panic (goid : Z) cf ce eb (fr : addr) (p : panicVal) : M unit :=
  _ ← update_frame fr (set_fr_panicking (Some p));
  runDefers goid cf ce eb fr.


(** *** A program that logs its deferred calls *)

Definition set_heap (h : gmap addr value) (w : world) : world :=
  {| w_interp := w_interp w; w_frames := w_frames w;
     w_functions := w_functions w; w_heap := h; w_maps := w_maps w |}.

(** The function compiled at [pfn] appends its own address to the array
    at address 99. *)
Definition log_call (caller : option addr) (pfn : addr) (args env : list value)
  : M unit := fun w =>
  let old := match w_heap w !! 99%positive with
             | Some (VArray _ l) => l
             | _ => []
             end in
  (Ok tt,
   set_heap (<[99%positive :=
               VArray (TSlice (TBasic Int))
                 (old ++ [VInt (TBasic Int) (Z.pos pfn)])]> (w_heap w)) w).

Definition no_external (caller : option addr) (v : value) (args : list value)
  : M unit := mret tt.

Definition no_effect (caller : option addr) (name : string)
    (args : list value) (ssaArgs : list ssaValue) : M unit := mret tt.

(** Every call site calls the closure named by the pointer of its
    callee value, without arguments. *)
Definition closure_call (fr : addr) (call : CallCommon) (iv : Register)
    (ia ib : list Register) : M (callee * list value) :=
  mret (FnClosure (sv_ptr (Call_Value call)) [], []).

Definition defer_of (n : positive) : DeferInstr :=
  {| Defer_ptr := n;
     Defer_Call := {| Call_Value := {| sv_ptr := n; sv_node := Instr |};
                      Call_Args := []; Call_Method := None |} |}.

Definition one_frame (p : option panicVal) : world :=
  {| w_interp := empty_interp;
     w_frames := {[ 1%positive := set_fr_panicking p (frame_of None []) ]};
     w_functions := ∅; w_heap := ∅; w_maps := ∅ |}.

(** The frame after [defer f1(); defer f2(); defer f3()]. *)
Definition three_defers (p : option panicVal) : world :=
  snd (Defer_step closure_call (defer_of 3) 0 [] [] 1
    (snd (Defer_step closure_call (defer_of 2) 0 [] [] 1
      (snd (Defer_step closure_call (defer_of 1) 0 [] [] 1 (one_frame p)))))).

(** ** The top-level runner *)

(** The [error] returned by the runner: a panic value that is an error
    ([err = p]), or a fresh [fmt.Errorf]. *)
Inductive error :=
| ErrorOf (p : panicVal)
| Errorf (msg : string).

Definition set_i_exited (b : bool) (i : Interp) : Interp :=
  {| i_mode := i_mode i; i_members := i_members i;
     i_installed := i_installed i; i_globals := i_globals i;
     i_stack := i_stack i; i_stackIndex := i_stackIndex i;
     i_funcs := i_funcs i; i_deferCount := i_deferCount i;
     i_deferMap := i_deferMap i; i_exited := b |}.

(** The function that [findExternFunc] binds to ["os.Exit"]: once the
    run is over it ends the process, during the run it panics with an
    [exitPanic]. *)
Definition os_Exit (code : Z) : M unit := fun w =>
  if i_exited (w_interp w) then (Halt code, w) else (Panic (PExit code), w).

(** What [%v] prints for the panic values that reach the default case of
    the runner's switch. *)
Definition panic_text (p : panicVal) : string :=
  match p with
  | PExit n => pv n
  | PTarget v => pT v
  | PNative m | PPlainError m | PString m | PValueError m | PError m => m
  | PRuntimeError m => "runtime error: " +:+ m
  end.

(** The switch on [recover()] shared by [Run] and [RunFunc]: the error
    to return. *)
Definition error_of_panic (p : panicVal) : option error :=
  match p with
  | PExit _ => None
  | PTarget _ | PNative _ | PRuntimeError _ | PPlainError _ =>
      Some (ErrorOf p)
  | PString s => Some (ErrorOf (PPlainError s))
  | PValueError _ | PError _ =>
      Some (Errorf ("unexpected type: " +:+ panic_type p +:+ ": "
                    +:+ panic_text p))
  end.

Section Runner.
(** [Interp.call], the execution of the program from an entry point. *)
Variable call :
  option addr -> callee -> list value -> list ssaValue -> M value.

(** The deferred top-level handler of [Run], entered with the panic in
    flight (if any) and the current values of the named results. *)
Definition Run_handler (panicked : option panicVal) (exitCode : Z)
    (err : option error) : M (Z * option error) := fun w =>
  let leave (w : world) : result (Z * option error) * world :=
    match panicked with
    | Some p => (Panic p, w)
    | None => (Ok (exitCode, err), w)
    end in
  if i_exited (w_interp w) then leave w
  else
    let w' := set_interp (set_i_exited true (w_interp w)) w in
    if negb (Z.land (i_mode (w_interp w)) DisableRecover =? 0) then leave w'
    else
      match panicked with
      | None => (Ok (exitCode, err), w')
      | Some (PExit code) => (Ok (code, err), w')
      | Some p => (Ok (exitCode, error_of_panic p), w')
      end.

Definition Run (entry : string) : M (Z * option error) := fun w =>
  let w0 := set_interp (set_i_exited false (w_interp w)) w in
  match i_members (w_interp w0) !! entry with
  | Some mainFn =>
      match call None (FnFunction mainFn) [] [] w0 with
      | (Ok _, w1) => Run_handler None 0 None w1
      | (Panic p, w1) => Run_handler (Some p) 2 None w1
      | (Halt c, w1) => (Halt c, w1)
      end
  | None =>
      Run_handler None 1 (Some (Errorf ("no function " +:+ entry))) w0
  end.

Definition RunFunc_handler (panicked : option panicVal) (r : value)
    (err : option error) : M (value * option error) := fun w =>
  if negb (Z.land (i_mode (w_interp w)) DisableRecover =? 0) then
    match panicked with
    | Some p => (Panic p, w)
    | None => (Ok (r, err), w)
    end
  else
    match panicked with
    | None => (Ok (r, err), w)
    | Some (PExit _) => (Ok (r, err), w)
    | Some p => (Ok (r, error_of_panic p), w)
    end.

Definition RunFunc (name : string) (args : list value)
  : M (value * option error) := fun w =>
  match i_members (w_interp w) !! name with
  | Some fn =>
      match call None (FnFunction fn) args [] w with
      | (Ok r, w1) => RunFunc_handler None r None w1
      | (Panic p, w1) => RunFunc_handler (Some p) VNil None w1
      | (Halt c, w1) => (Halt c, w1)
      end
  | None =>
      RunFunc_handler None VNil (Some (Errorf ("no function " +:+ name))) w
  end.
End Runner.

(** *** Sample programs *)

(** A program whose execution reaches [os.Exit(n)]. *)
Definition exits_with (n : Z) (caller : option addr) (fn : callee)
    (args : list value) (ssaArgs : list ssaValue) : M value :=
  _ ← os_Exit n; mret VNil.

Definition main_world (mode : Z) : world :=
  {| w_interp :=
       {| i_mode := mode; i_members := {[ "main" := 5%positive ]};
          i_installed := ∅; i_globals := ∅; i_stack := [];
          i_stackIndex := ∅; i_funcs := ∅; i_deferCount := 0;
          i_deferMap := ∅; i_exited := true |};
     w_frames := ∅; w_functions := ∅; w_heap := ∅; w_maps := ∅ |}.

Definition started (w : world) : world :=
  set_interp (set_i_exited false (w_interp w)) w.

Definition finished (w : world) : world :=
  set_interp (set_i_exited true (w_interp w)) w.

(** ** The Lookup instruction *)

Record Lookup := MkLookup
  { Lookup_X : ssaValue; Lookup_Index : ssaValue; Lookup_CommaOk : bool }.

Fixpoint Key_of (t : rtype) : option rtype :=
  match t with
  | TNamed _ u => Key_of u
  | TMap k _ => Some k
  | _ => None
  end.

(** A key can be hashed when comparing it with itself does not panic. *)
Definition hashable (k : value) : bool :=
  match go_eq k k with
  | Ok _ => true
  | _ => false
  end.

(** Key equality of the native map. *)
Definition key_eqb (k k' : value) : bool :=
  match go_eq k k' with
  | Ok b => b
  | _ => false
  end.

Fixpoint map_find (k : value) (entries : list (value * value))
  : option value :=
  match entries with
  | [] => None
  | (k', v) :: rest => if key_eqb k k' then Some v else map_find k rest
  end.

(** Whether a box may be passed where the map expects a key of type
    [kt]: any non-nil box for an interface key type, a box of that very
    type otherwise. *)
Definition assignable (k : value) (kt : rtype) : bool :=
  match Type_of k with
  | Some t => bool_decide (Kind_of kt = Interface) || rtype_eqb t kt
  | None => false
  end.

(** [reflect.Value.MapIndex]: the box stored under the key, [None] (the
    zero Value) when the key is not found or the map is nil.  The key
    must be a valid [reflect.Value]: on the zero Value, which is what
    [reflect.ValueOf] makes of the nil interface, the call panics while
    it inspects the type of the key. *)
Definition Value_MapIndex (vm key : value) (w : world)
  : result (option value) :=
  match vm with
  | VMap t m =>
      match key with
      | VNil => Panic nil_deref
      | _ =>
          if assignable key (default (TBasic Invalid) (Key_of t)) then
            if hashable key then
              match m with
              | None => Ok None
              | Some a => Ok (map_find key (default [] (w_maps w !! a)))
              end
            else Panic (PNative ("runtime error: hash of unhashable type "
                                 +:+ pT key))
          else Panic (PString
                 ("reflect.Value.MapIndex: value of type " +:+ pT key
                  +:+ " is not assignable to type "
                  +:+ type_string (default (TBasic Invalid) (Key_of t))))
      end
  | _ => Panic (PValueError "reflect: call of reflect.Value.MapIndex")
  end.

(** [reflect.Value.MapKeys]. *)
Definition Value_MapKeys (vm : value) (w : world) : result (list value) :=
  match vm with
  | VMap _ None => Ok []
  | VMap _ (Some a) => Ok (map fst (default [] (w_maps w !! a)))
  | _ => Panic (PValueError "reflect: call of reflect.Value.MapKeys")
  end.

(** The scan of the keys when the key type has blank fields: the first
    key structurally equal to [vk] replaces it. *)
Fixpoint scan_keys (vk : value) (keys : list value) : result value :=
  match keys with
  | [] => Ok vk
  | vv :: rest =>
      b ← equalStruct vk vv;
      if b : bool then Ok vv else scan_keys vk rest
  end.

Definition bool_box (b : bool) : value := VBool (TBasic Bool) b.

(** What the step stores for the outcome [v] of [MapIndex]. *)
Definition lookup_result (elem : rtype) (commaOk : bool) (v : option value)
  : value :=
  let ok := bool_decide (is_Some v) in
  let rv := match v with
            | Some x => x
            | None => Value_Interface (Zero elem)
            end in
  if commaOk then tuple [rv; bool_box ok] else rv.

Definition Value_String (v : value) : string :=
  match v with
  | VString _ s => s
  | VNil => "<invalid Value>"
  | _ => "<" +:+ pT v +:+ " Value>"
  end.

(** The step of an [*ssa.Lookup] instruction on an operand of reflected
    type [typ]; [underscore] is [pfn.mapUnderscoreKey] at the type of
    the operand.  The panic "unreachable" is raised when the step is
    built. *)
Definition Lookup_step (instr : Lookup) (typ : rtype) (underscore : bool)
    (ir ix ii : Register) : result (addr -> M unit) :=
  match Kind_of typ with
  | String =>
      Ok (fun fr =>
        v ← reg fr ix;
        idx ← reg fr ii;
        i ← lift (asInt idx);
        match (if i <? 0 then None
               else String.get (Z.to_nat i) (Value_String v)) with
        | Some c =>
            setReg fr ir (VInt (TBasic Uint8)
                            (Z.of_nat (Ascii.nat_of_ascii c)))
        | None => go_panic index_out_of_range
        end)
  | Map =>
      let elem := default (TBasic Invalid) (Elem_of typ) in
      if underscore then
        Ok (fun fr =>
          m ← reg fr ix;
          idx ← reg fr ii;
          keys ← mk (fun w => (Value_MapKeys m w, w));
          vk ← lift (scan_keys idx keys);
          v ← mk (fun w => (Value_MapIndex m vk w, w));
          setReg fr ir (lookup_result elem (Lookup_CommaOk instr) v))
      else
        Ok (fun fr =>
          m ← reg fr ix;
          idx ← reg fr ii;
          v ← mk (fun w => (Value_MapIndex m idx w, w));
          setReg fr ir (lookup_result elem (Lookup_CommaOk instr) v))
  | _ => Panic (PString "unreachable")
  end.

(** A frame whose slots hold a [map[interface{}]int] with the single
    entry ["a": 1], the key [k], and a free slot. *)
Definition iface_map : rtype := TMap (TInterface "interface {}") (TBasic Int).

Definition lookup_world (k : value) : world :=
  {| w_interp := empty_interp;
     w_frames := {[ 1%positive :=
       frame_of None [VMap iface_map (Some 5%positive); k; VNil] ]};
     w_functions := ∅; w_heap := ∅;
     w_maps := {[ 5%positive :=
       [(VString (TBasic String) "a", VInt (TBasic Int) 1)] ]} |}.

Definition commaok_lookup : Lookup :=
  {| Lookup_X := an_operand; Lookup_Index := an_operand;
     Lookup_CommaOk := true |}.

Definition run_lookup (k : value) : result unit * world :=
  match Lookup_step commaok_lookup iface_map false 2 0 1 with
  | Ok step => step 1%positive (lookup_world k)
  | Panic p => (Panic p, lookup_world k)
  | Halt c => (Halt c, lookup_world k)
  end.

(** The third slot of the frame at address 1 after a step. *)
Definition slot2 (r : result unit * world) : option value :=
  f ← w_frames (snd r) !! 1%positive; fr_stack f !! 2%nat.

(** ** The Select instruction *)

Record SelectState := MkState
  { State_Dir : chanDir;
    State_Chan : ssaValue;
    State_ChanType : rtype;       (* interp.toType(st.Chan.Type()) *)
    State_Send : option ssaValue }.

Record Select := MkSelect
  { Select_States : list SelectState; Select_Blocking : bool }.

Inductive SelectDir := SelectSend | SelectRecv | SelectDefault.

(** [reflect.SelectCase]; [Chan] and [Send] are zero Values where the
    case has none. *)
Record SelectCase := MkCase
  { case_Dir : SelectDir; case_Chan : value; case_Send : value }.

Definition default_case : SelectCase :=
  {| case_Dir := SelectDefault; case_Chan := VNil; case_Send := VNil |}.

Definition int_box (n : Z) : value := VInt (TBasic Int) n.

(** The value to send: the typed zero when the register holds the nil
    interface. *)
Definition send_operand (ch v : value) : result value :=
  match v with
  | VNil =>
      match Type_of ch with
      | Some t => Ok (Zero (default (TBasic Invalid) (Elem_of t)))
      | None => Panic zero_Value_Type
      end
  | _ => Ok v
  end.

(** The loop that builds one case per state, in declaration order. *)
Fixpoint build_cases (fr : addr) (states : list SelectState)
    (ic is_ : list Register) : M (list SelectCase) :=
  match states, ic, is_ with
  | [], _, _ => mret []
  | state :: states', c :: ic', s :: is' =>
      let dir := if bool_decide (State_Dir state = RecvDir)
                 then SelectRecv else SelectSend in
      ch ← reg fr c;
      send ← match State_Send state with
             | Some _ => v ← reg fr s; lift (send_operand ch v)
             | None => mret VNil
             end;
      rest ← build_cases fr states' ic' is';
      mret ({| case_Dir := dir; case_Chan := ch; case_Send := send |} :: rest)
  | _, _, _ => go_panic index_out_of_range
  end.

(** The loop that appends one value per receive state: the received
    value for the chosen state when the receive succeeded, the zero
    value of the element type of the channel otherwise.  [n] is the
    index of the first state of [states]. *)
Fixpoint recv_values (n : Z) (states : list SelectState) (chosen : Z)
    (recv : value) (recvOk : bool) : list value :=
  match states with
  | [] => []
  | st :: rest =>
      let more := recv_values (n + 1) rest chosen recv recvOk in
      if bool_decide (State_Dir st = RecvDir) then
        (if (n =? chosen) && recvOk then Value_Interface recv
         else Value_Interface
                (Zero (default (TBasic Invalid) (Elem_of (State_ChanType st)))))
        :: more
      else more
  end.

Section SelectStep.
(** [reflect.Select]: the native multi-way select. *)
Variable reflect_Select : list SelectCase -> M (Z * value * bool).

(** The step of an [*ssa.Select] instruction. *)
Definition Select_step (instr : Select) (ir : Register)
    (ic is_ : list Register) (fr : addr) : M unit :=
  let cases0 := if negb (Select_Blocking instr) then [default_case] else [] in
  cases ← build_cases fr (Select_States instr) ic is_;
  '(chosen0, recv, recvOk) ← reflect_Select (cases0 ++ cases);
  let chosen := if negb (Select_Blocking instr) then wrap Int (chosen0 - 1)
                else chosen0 in
  let r := [int_box chosen; bool_box recvOk]
           ++ recv_values 0 (Select_States instr) chosen recv recvOk in
  setReg fr ir (tuple r).
End SelectStep.

(** *** Receive states *)




(** A non-blocking select over two receive cases. *)
Definition int_chan : rtype := TChan BothDir (TBasic Int).
Definition str_chan : rtype := TChan BothDir (TBasic String).

Definition select_world : world :=
  {| w_interp := empty_interp;
     w_frames := {[ 1%positive :=
       frame_of None [VChan int_chan (Some 11%positive);
                      VChan str_chan (Some 12%positive); VNil] ]};
     w_functions := ∅; w_heap := ∅; w_maps := ∅ |}.

Definition recv_state (t : rtype) : SelectState :=
  {| State_Dir := RecvDir; State_Chan := an_operand; State_ChanType := t;
     State_Send := None |}.

Definition two_recvs : Select :=
  {| Select_States := [recv_state int_chan; recv_state str_chan];
     Select_Blocking := false |}.

(** The native select finds the second channel ready with ["hi"] ... *)
Definition second_ready (cases : list SelectCase) : M (Z * value * bool) :=
  mret (2, VString (TBasic String) "hi", true).

(** ... or nothing ready, and takes the default case. *)
Definition nothing_ready (cases : list SelectCase) : M (Z * value * bool) :=
  mret (0, VNil, false).

(** * Properties *)

(** ** Shift counts *)

Lemma wrapU_small w n : 0 <= n < 2 ^ w -> wrapU w n = n.
Proof. intros H. unfold wrapU. apply Z.mod_small; lia. Qed.

Lemma in_range_nonneg_64 k n :
  is_integer k = true -> in_range k n -> 0 <= n -> 0 <= n < 2 ^ 64.
Proof.
  unfold is_integer, in_range.
  destruct k; simpl; try discriminate; intros _ H H0;
    unfold intSize in *; lia.
Qed.

Lemma asUint64_signed_negative t n :
  is_signed (Kind_of t) = true -> n < 0 ->
  asUint64 (VInt t n) = Panic negative_shift.
Proof.
  intros Hs Hn.
  assert (Hlt : (0 <=? n) = false) by (apply Z.leb_gt; lia).
  assert (Hu : is_unsigned (Kind_of t) = false)
    by (destruct (Kind_of t); simpl in *; congruence).
  destruct t as [k| | | | | | | | |]; simpl in *; try discriminate.
  - destruct k; simpl in *; try discriminate; rewrite Hlt; reflexivity.
  - rewrite Hu, Hs, Hlt. reflexivity.
Qed.

Lemma asUint64_widen t n :
  is_integer (Kind_of t) = true -> in_range (Kind_of t) n ->
  (is_signed (Kind_of t) = true -> 0 <= n) ->
  asUint64 (VInt t n) = Ok n.
Proof.
  intros Hi Hr Hs.
  assert (Hn : 0 <= n).
  { destruct (is_signed (Kind_of t)) eqn:E; [auto|].
    unfold in_range in Hr. rewrite E in Hr. lia. }
  pose proof (in_range_nonneg_64 _ _ Hi Hr Hn) as H64.
  assert (Hw : wrap Uint64 n = n) by (apply wrapU_small; exact H64).
  assert (Hle : (0 <=? n) = true) by (apply Z.leb_le; lia).
  unfold is_integer in Hi.
  destruct t as [k| | | | | | | | |]; simpl in *; try discriminate.
  - destruct k; simpl in *; try discriminate; rewrite ?Hle, ?Hw; reflexivity.
  - destruct (is_unsigned (Kind_of t)) eqn:Eu; [reflexivity|].
    destruct (is_signed (Kind_of t)); [|discriminate].
    rewrite Hle, Hw. reflexivity.
Qed.

(** C7.  The shift count of [opSHL]/[opSHR] goes through [asUint64]:
    an integer count (of a predeclared or named type) that is not a
    negative signed number is widened to itself as an unsigned 64-bit
    value, and the shift only depends on that widened count; a signed
    count with a negative value makes both operations panic with the
    runtime error "negative shift amount", whatever the left operand. *)
Theorem shift_count_widened_or_negative_panic (x : value) (t : rtype) (n : Z) :
  is_integer (Kind_of t) = true -> in_range (Kind_of t) n ->
  (is_signed (Kind_of t) = true /\ n < 0 ->
     opSHL x (VInt t n) = Panic (PRuntimeError "negative shift amount") /\
     opSHR x (VInt t n) = Panic (PRuntimeError "negative shift amount")) /\
  (~ (is_signed (Kind_of t) = true /\ n < 0) ->
     asUint64 (VInt t n) = Ok n /\ 0 <= n < 2 ^ 64 /\
     opSHL x (VInt t n) = opSHL x (VInt (TBasic Uint64) n) /\
     opSHR x (VInt t n) = opSHR x (VInt (TBasic Uint64) n)).
Proof.
  intros Hi Hr. split.
  - intros [Hs Hn]. unfold opSHL, opSHR, shift.
    rewrite (asUint64_signed_negative t n Hs Hn). split; reflexivity.
  - intros Hnot.
    assert (Hs : is_signed (Kind_of t) = true -> 0 <= n).
    { intros Hs. destruct (Z.lt_ge_cases n 0); [exfalso; auto | lia]. }
    pose proof (asUint64_widen t n Hi Hr Hs) as Hw.
    assert (Hn : 0 <= n).
    { destruct (is_signed (Kind_of t)) eqn:E; [auto|].
      unfold in_range in Hr. rewrite E in Hr. lia. }
    repeat split; try exact Hw;
      try (apply (in_range_nonneg_64 _ _ Hi Hr Hn)).
    + unfold opSHL, shift. rewrite Hw. reflexivity.
    + unfold opSHR, shift. rewrite Hw. reflexivity.
Qed.

Lemma shift_count_widened_or_negative_panic_witness :
  opSHL (VInt (TBasic Int32) 1) (VInt (TBasic Int8) (-1))
    = Panic (PRuntimeError "negative shift amount") /\
  opSHL (VInt (TBasic Int8) 3) (VInt (TNamed "main.N" (TBasic Int)) 6)
    = opSHL (VInt (TBasic Int8) 3) (VInt (TBasic Uint64) 6).
Proof.
  split.
  - apply (shift_count_widened_or_negative_panic
             (VInt (TBasic Int32) 1) (TBasic Int8) (-1));
      [reflexivity | vm_compute; split; congruence | split; [reflexivity | lia]].
  - apply (shift_count_widened_or_negative_panic
             (VInt (TBasic Int8) 3) (TNamed "main.N" (TBasic Int)) 6);
      [reflexivity | vm_compute; split; congruence | simpl; lia].
Defined.

Example opSHL_int8_overflow :
  opSHL (VInt (TBasic Int8) 3) (VInt (TBasic Uint) 6)
  = Ok (VInt (TBasic Int8) (-64)).
Proof. reflexivity. Qed.

Example opSHR_int8_negative :
  opSHR (VInt (TBasic Int8) (-128)) (VInt (TBasic Int) 9)
  = Ok (VInt (TBasic Int8) (-1)).
Proof. reflexivity. Qed.

(** ** Comparison with a nil constant *)

(** C5, as stated, fails: the right operand is the nil constant of an
    interface type, whose box is the nil interface; the left operand is
    an interface holding a nil [*int], whose reflected value is
    nil-kinded; yet [opEQL] answers false, because the kinds of the two
    reflected values differ. *)
Lemma opEQL_nil_not_iff_IsNil :
  IsConstNil (BinOp_Y iface_eq_nil) = true /\
  constToValue (Typed (TInterface "interface {}")) None = VNil /\
  IsNil (VPtr (TPtr (TBasic Int)) None) = true /\
  opEQL iface_eq_nil (VPtr (TPtr (TBasic Int)) None) VNil = Ok false.
Proof. repeat split. Qed.

(** C5, amended.  When one operand of [==] is a nil constant, [opEQL]
    returns without panic, and its result is true exactly when the two
    reflected values have the same kind and the other operand is
    nil-kinded ([IsNil]: the invalid value, or a nil slice, map, func,
    chan, pointer, unsafe pointer or interface).  [instr.X] is looked at
    first. *)
Theorem opEQL_const_nil (instr : BinOp) (x y : value) :
  (IsConstNil (BinOp_X instr) = true ->
     opEQL instr x y = Ok (bool_decide (Kind x = Kind y) && IsNil y) /\
     (opEQL instr x y = Ok true <-> Kind x = Kind y /\ IsNil y = true)) /\
  (IsConstNil (BinOp_X instr) = false ->
   IsConstNil (BinOp_Y instr) = true ->
     opEQL instr x y = Ok (bool_decide (Kind x = Kind y) && IsNil x) /\
     (opEQL instr x y = Ok true <-> Kind x = Kind y /\ IsNil x = true)).
Proof.
  unfold opEQL. split.
  - intros ->. destruct (bool_decide_reflect (Kind x = Kind y)) as [E|E];
      simpl; (split; [reflexivity|]).
    + split; [intros [= ->]; auto | intros [_ ->]; reflexivity].
    + split; [discriminate | intros [? _]; contradiction].
  - intros -> ->. destruct (bool_decide_reflect (Kind x = Kind y)) as [E|E];
      simpl; (split; [reflexivity|]).
    + split; [intros [= ->]; auto | intros [_ ->]; reflexivity].
    + split; [discriminate | intros [? _]; contradiction].
Qed.

Lemma zero_at_nilable u : forall t,
  Kind_of u = Kind_of t -> basic_ok u = true ->
  nilable (Kind_of t) = true ->
  Kind (zero_at t u) = Kind_of t /\ IsNil (zero_at t u) = true /\
  Value_Interface (zero_at t u) = zero_at t u.
Proof.
  induction u as [k|n u IH|n e _|e _|e _|k _ e _|d e _|s|s|fs];
    intros t Hk Hb Hn; simpl in Hk; rewrite <- Hk in Hn; simpl in Hn;
    try discriminate;
    try (simpl zero_at; unfold IsNil; simpl; rewrite <- Hk; simpl;
         repeat split; reflexivity).
  - destruct k; try discriminate.
    simpl zero_at. unfold IsNil. simpl. rewrite <- Hk. simpl.
    repeat split; reflexivity.
  - simpl zero_at. rewrite Hk in Hn. apply IH; assumption.
Qed.

(** For the nil constant of a slice, map, func, chan, pointer or
    unsafe-pointer type, compared with an operand of that kind, the
    result is [IsNil] of the operand; for the nil constant of an
    interface type it is whether the operand is the nil interface. *)
Lemma opEQL_typed_nil (t : rtype) (x : value) :
  (basic_ok t = true -> nilable (Kind_of t) = true -> Kind x = Kind_of t ->
   opEQL {| BinOp_X := an_operand; BinOp_Y := nil_of t |} x
     (constToValue (Typed t) None) = Ok (IsNil x)) /\
  (forall name, t = TInterface name ->
   opEQL {| BinOp_X := an_operand; BinOp_Y := nil_of t |} x
     (constToValue (Typed t) None) = Ok (bool_decide (Kind x = Invalid))).
Proof.
  split.
  - intros Hb Hn Hx.
    destruct (zero_at_nilable t t eq_refl Hb Hn) as (Hk & Hz & Hv).
    fold (Zero t) in Hk, Hz, Hv.
    unfold opEQL, constToValue. rewrite Hv, Hk, Hx.
    rewrite bool_decide_eq_true_2 by reflexivity. reflexivity.
  - intros name ->. unfold opEQL. simpl.
    destruct (bool_decide_reflect (Kind x = Invalid)) as [E|E]; simpl;
      [|reflexivity].
    unfold IsNil. rewrite E. reflexivity.
Qed.

Lemma opEQL_const_nil_witness :
  opEQL {| BinOp_X := an_operand; BinOp_Y := nil_of (TSlice (TBasic Int)) |}
        (VSlice (TSlice (TBasic Int)) None)
        (constToValue (Typed (TSlice (TBasic Int))) None)
  = Ok true.
Proof.
  apply (opEQL_const_nil
           {| BinOp_X := an_operand; BinOp_Y := nil_of (TSlice (TBasic Int)) |}
           (VSlice (TSlice (TBasic Int)) None)
           (constToValue (Typed (TSlice (TBasic Int))) None));
    [reflexivity | reflexivity | split; reflexivity].
Defined.

(** ** Slices *)

Example slice_string_at_len :
  fst (slice 1 from_low false 0 0 1 0
         (slice_world (VString (TBasic String) "go") 2))
  = Ok (VString (TBasic String) EmptyString).
Proof. vm_compute. reflexivity. Qed.

Example slice_past_cap :
  fst (slice 1 from_low false 0 0 1 0 (slice_world two_of_four 5))
  = Panic (PRuntimeError
             "slice bounds out of range [5:2]").
Proof. vm_compute. reflexivity. Qed.

(** *** Bounds checks *)

Lemma string_app_inv_head (s a b : string) : s +:+ a = s +:+ b -> a = b.
Proof.
  induction s as [|c s IH]; simpl; intros H; [exact H|].
  injection H as H. auto.
Qed.

Ltac zb :=
  repeat match goal with
    | |- context [?a <? ?b] => destruct (Z.ltb_spec a b); simpl
    | |- context [?a =? ?b] => destruct (Z.eqb_spec a b); simpl
    end.




(** Beyond the capacity, a slice operand is reported "with capacity",
    an array or string operand "with length", and the make-slice
    context by the "makeslice:" messages. *)
Lemma slice_check_contexts k lo hi max Cap :
  0 <= hi -> Cap < hi -> k <> Slice ->
  slice_check false false Slice lo hi max Cap
    = Some (out_of_range ("[:" +:+ pv hi +:+ "] with capacity " +:+ pv Cap)) /\
  slice_check false false k lo hi max Cap
    = Some (out_of_range ("[:" +:+ pv hi +:+ "] with length " +:+ pv Cap)) /\
  slice_check false false Slice lo hi max Cap
    <> slice_check false false k lo hi max Cap /\
  (forall s3, slice_check true s3 k lo hi max Cap
              <> slice_check false false k lo hi max Cap) /\
  (forall s3, slice_check true s3 k lo hi max Cap
              <> slice_check false false Slice lo hi max Cap).
Proof.
  intros H0 Hc Hk.
  assert (E1 : slice_check false false Slice lo hi max Cap
    = Some (out_of_range ("[:" +:+ pv hi +:+ "] with capacity " +:+ pv Cap))).
  { unfold slice_check. zb; try lia. reflexivity. }
  assert (E2 : slice_check false false k lo hi max Cap
    = Some (out_of_range ("[:" +:+ pv hi +:+ "] with length " +:+ pv Cap))).
  { unfold slice_check. zb; try lia. case_bool_decide; [contradiction|].
    reflexivity. }
  rewrite E1, E2. repeat split.
  - intros [= H]. simpl in H. apply (string_app_inv_head (pv hi)) in H.
    simpl in H. discriminate H.
  - intros s3. unfold slice_check. zb; discriminate.
  - intros s3. unfold slice_check. zb; discriminate.
Qed.

(** *** The outcome of [slice] *)










(** [x[len(x):]] on a slice of length 2 and capacity 4 over the array at
    address 7: the empty view [v.Slice3(2, 2, 4)] over the same array. *)
Example slice_slice_at_len :
  slice 1 from_low false 0 0 1 0 (slice_world two_of_four 2)
  = (Ok (VSlice ints (Some {| sl_arr := 7; sl_off := 2;
                              sl_len := 0; sl_cap := 2 |})),
     slice_world two_of_four 2).
Proof. vm_compute. reflexivity. Qed.



(** ** Register stability *)

Lemma hit_regIndex p v r w : hit p v r w -> regIndex p v w = (Ok r, w).
Proof.
  intros (pf & Hp & H). unfold regIndex, mbind, M_bind, the_function, mk.
  rewrite Hp. cbv beta iota. destruct H as [H | [H1 H2]].
  - rewrite H. reflexivity.
  - rewrite H1, H2. reflexivity.
Qed.

Lemma loadFunction_keeps fn w p pf :
  w_functions w !! p = Some pf ->
  w_functions (snd (loadFunction fn w)) !! p = Some pf /\
  i_stackIndex (w_interp (snd (loadFunction fn w)))
    = i_stackIndex (w_interp w) /\
  i_stack (w_interp (snd (loadFunction fn w))) = i_stack (w_interp w).
Proof.
  intros Hp. unfold loadFunction.
  destruct (i_funcs (w_interp w) !! sv_ptr fn); [auto|].
  destruct (sv_node fn) as [| |? [] ? ? ?|]; simpl; auto.
  split; [|auto]. rewrite lookup_insert_ne; [exact Hp|].
  intros E. pose proof (is_fresh (dom (w_functions w))) as Hf.
  rewrite E in Hf. apply Hf. apply elem_of_dom. eauto.
Qed.

(** What [static_value] leaves of the indices. *)
Lemma static_value_keeps v w p pf :
  w_functions w !! p = Some pf ->
  exists vs vk w', static_value v w = (Ok (vs, vk), w') /\
    w_functions w' !! p = Some pf /\
    i_stackIndex (w_interp w') = i_stackIndex (w_interp w) /\
    (vk = kindInvalid -> w' = w).
Proof.
  intros Hp. unfold static_value.
  destruct (sv_node v) as [typ val| |n [] t np nf|] eqn:En;
    try (eexists _, _, _; split; [reflexivity|]; simpl; repeat split;
         auto; discriminate).
  unfold mbind, M_bind.
  destruct (loadFunction_keeps v w p pf Hp) as (H1 & H2 & _).
  destruct (loadFunction v w) as [[a|e|c] w'] eqn:El.
  - eexists _, _, _. split; [reflexivity|]. simpl in *.
    repeat split; auto; discriminate.
  - exfalso. unfold loadFunction in El. rewrite En in El.
    destruct (i_funcs (w_interp w) !! sv_ptr v); discriminate.
  - exfalso. unfold loadFunction in El. rewrite En in El.
    destruct (i_funcs (w_interp w) !! sv_ptr v); discriminate.
Qed.

Lemma regIndex_total p v w pf :
  w_functions w !! p = Some pf ->
  exists r w1, regIndex p v w = (Ok r, w1) /\ hit p v r w1.
Proof.
  intros Hp. unfold regIndex, mbind, M_bind, the_function, mk. rewrite Hp.
  cbv beta iota.
  destruct (i_stackIndex (w_interp w) !! sv_ptr v) as [i|] eqn:Ei.
  { exists i, w. split; [reflexivity|]. exists pf. auto. }
  destruct (f_stackIndex pf !! sv_ptr v) as [i|] eqn:Ef.
  { exists i, w. split; [reflexivity|]. exists pf. auto. }
  destruct (static_value_keeps v w p pf Hp) as (vs & vk & w' & Es & Hp' & Hi & Hw).
  rewrite Es.
  destruct (kind_code vk =? 0) eqn:Ek; simpl.
  - eexists _, _. split; [reflexivity|].
    eexists. simpl. rewrite lookup_insert_eq. split; [reflexivity|].
    right. simpl. rewrite lookup_insert_eq.
    assert (vk = kindInvalid) as Hk
      by (destruct vk; simpl in Ek; try discriminate; reflexivity).
    rewrite (Hw Hk). auto.
  - eexists _, _. split; [reflexivity|].
    exists pf. simpl. split; [exact Hp'|]. left. apply lookup_insert_eq.
Qed.

Lemma hit_preserved p v r v' w :
  hit p v r w -> hit p v r (snd (regIndex p v' w)).
Proof.
  intros (pf & Hp & H).
  unfold regIndex, mbind, M_bind, the_function, mk. rewrite Hp.
  cbv beta iota.
  destruct (i_stackIndex (w_interp w) !! sv_ptr v') as [i|] eqn:Ei.
  { exists pf. auto. }
  destruct (f_stackIndex pf !! sv_ptr v') as [i|] eqn:Ef.
  { exists pf. auto. }
  assert (Hne : sv_ptr v' <> sv_ptr v).
  { intros E. rewrite E in *. destruct H as [H | [_ H]]; congruence. }
  destruct (static_value_keeps v' w p pf Hp) as (vs & vk & w' & Es & Hp' & Hi & Hw).
  rewrite Es.
  destruct (kind_code vk =? 0) eqn:Ek; simpl.
  - eexists. simpl. rewrite lookup_insert_eq. split; [reflexivity|].
    assert (vk = kindInvalid) as Hk
      by (destruct vk; simpl in Ek; try discriminate; reflexivity).
    rewrite (Hw Hk). simpl. rewrite lookup_insert_ne by exact Hne. exact H.
  - exists pf. simpl. split; [exact Hp'|].
    rewrite lookup_insert_ne by exact Hne. rewrite Hi. exact H.
Qed.

Lemma hit_regIndex_all p v r vs w :
  hit p v r w -> hit p v r (regIndex_all p vs w).
Proof.
  revert w. induction vs as [|v' vs IH]; intros w H; simpl; [exact H|].
  apply IH. apply hit_preserved. exact H.
Qed.

(** C6.  While a function [p] is compiled, the first call of
    [regIndex(v)] returns a register, and every later call, whatever
    other values were given registers in between, returns that same
    register from the interpreter-wide or the function-local index and
    leaves the state as it is: no slot is allocated. *)
Theorem regIndex_stable (p : addr) (v : ssaValue) (w : world) :
  is_Some (w_functions w !! p) ->
  exists r w1, regIndex p v w = (Ok r, w1) /\
    forall vs : list ssaValue,
      regIndex p v (regIndex_all p vs w1) = (Ok r, regIndex_all p vs w1).
Proof.
  intros [pf Hp].
  destruct (regIndex_total p v w pf Hp) as (r & w1 & E & H).
  exists r, w1. split; [exact E|].
  intros vs. apply hit_regIndex. apply hit_regIndex_all. exact H.
Qed.

Lemma regIndex_stable_witness :
  exists r w1, regIndex 1 const_seven compile_world = (Ok r, w1) /\
    forall vs : list ssaValue,
      regIndex 1 const_seven (regIndex_all 1 vs w1)
      = (Ok r, regIndex_all 1 vs w1).
Proof.
  apply (regIndex_stable 1 const_seven compile_world).
  eexists. reflexivity.
Defined.

(** A constant is admitted to the static stack with kind bits
    [kindConst]; other values get the next frame-local slots. *)
Example regIndex_registers :
  let w1 := snd (regIndex 1 a_param compile_world) in
  let w2 := snd (regIndex 1 const_seven w1) in
  let w3 := snd (regIndex 1 a_local w2) in
  fst (regIndex 1 a_param compile_world) = Ok 0 /\
  fst (regIndex 1 const_seven w1) = Ok 16777216 /\
  fst (regIndex 1 a_local w2) = Ok 1 /\
  fst (regIndex 1 const_seven w3) = Ok 16777216 /\
  fst (regIndex 1 a_param w3) = Ok 0.
Proof. vm_compute. repeat split. Qed.

(** ** recover *)

(** C3, as stated, fails: after [panic(nil)] the frame 2 of the deferred
    call is not panicking and its caller is, yet [recover()] returns
    nil (and the panic is consumed); with the DisableRecover mode bit it
    returns nil too, consuming nothing. *)
Lemma doRecover_nil_while_caller_panics :
  panicking_of 2 (recover_world 0 (PTarget VNil)) = None /\
  panicking_of 1 (recover_world 0 (PTarget VNil)) = Some (PTarget VNil) /\
  fst (doRecover (Some 2%positive) (recover_world 0 (PTarget VNil))) = Ok VNil /\
  panicking_of 1 (snd (doRecover (Some 2%positive)
                         (recover_world 0 (PTarget VNil)))) = None /\
  doRecover (Some 2%positive) (recover_world DisableRecover (PString "boom"))
  = (Ok VNil, recover_world DisableRecover (PString "boom")).
Proof. vm_compute. repeat split. Qed.

Lemma recovered_nil p v : recovered p = Some v -> (v = VNil <-> p = PTarget VNil).
Proof.
  destruct p; simpl; intros [= <-]; split; try discriminate; congruence.
Qed.

(** C3, amended.  On an interpreter without the DisableRecover bit,
    [doRecover] with caller frame [c]:
    - when [c.panicking] is nil and [c.caller.panicking] holds a panic
      value [p], clears [c.caller.panicking]; for a target panic, a
      runtime error, a string, a plainError, a runtimeError or a
      [*reflect.ValueError] it returns the value of the panic, which is
      nil only for [panic(nil)]; for any other [p] it panics itself;
    - when [c.panicking] is non-nil, or [c] has no caller, or
      [c.caller.panicking] is nil, it returns nil and changes nothing. *)
Theorem doRecover_bracket (c : addr) (fc : frame) (w : world) :
  w_frames w !! c = Some fc ->
  Z.land (i_mode (w_interp w)) DisableRecover = 0 ->
  (forall cc fcc p,
     fr_panicking fc = None -> fr_caller fc = Some cc ->
     w_frames w !! cc = Some fcc -> fr_panicking fcc = Some p ->
     (forall v, recovered p = Some v ->
        doRecover (Some c) w
          = (Ok v, set_frame cc (set_fr_panicking None fcc) w) /\
        (v = VNil <-> p = PTarget VNil)) /\
     (recovered p = None ->
        exists msg, doRecover (Some c) w
          = (Panic (PString msg), set_frame cc (set_fr_panicking None fcc) w)))
  /\
  (fr_panicking fc <> None \/ fr_caller fc = None \/
   (exists cc fcc, fr_caller fc = Some cc /\ w_frames w !! cc = Some fcc /\
                   fr_panicking fcc = None) ->
   doRecover (Some c) w = (Ok VNil, w)).
Proof.
  intros Hc Hm. unfold doRecover. rewrite Hc, Hm. simpl. split.
  - intros cc fcc p Hp Hcc Hfcc Hpp.
    rewrite bool_decide_eq_true_2 by exact Hp.
    rewrite Hcc, Hfcc, Hpp. split.
    + intros v Hv. rewrite Hv. split; [reflexivity|].
      apply recovered_nil. exact Hv.
    + intros Hv. rewrite Hv. eexists. reflexivity.
  - intros [Hp | [Hcc | (cc & fcc & Hcc & Hfcc & Hpp)]].
    + rewrite bool_decide_eq_false_2 by exact Hp. reflexivity.
    + case_bool_decide; [|reflexivity]. rewrite Hcc. reflexivity.
    + case_bool_decide; [|reflexivity]. rewrite Hcc, Hfcc, Hpp. reflexivity.
Qed.

Lemma doRecover_bracket_witness :
  doRecover (Some 2%positive) (recover_world 0 (PString "boom"))
  = (Ok (VString (TBasic String) "boom"),
     set_frame 1 (set_fr_panicking None
                    (set_fr_panicking (Some (PString "boom"))
                       (frame_of None [])))
       (recover_world 0 (PString "boom"))).
Proof.
  destruct (doRecover_bracket 2 (frame_of (Some 1%positive) [])
              (recover_world 0 (PString "boom")) eq_refl eq_refl)
    as [Harmed _].
  destruct (Harmed 1%positive
              (set_fr_panicking (Some (PString "boom")) (frame_of None []))
              (PString "boom") eq_refl eq_refl eq_refl eq_refl)
    as [Hv _].
  apply (Hv (VString (TBasic String) "boom") eq_refl).
Defined.

(** ** Deferred calls *)

Ltac munfold :=
  repeat progress
    (unfold mbind, M_bind, mret, M_ret, mk, lift, go_panic, update_frame,
       update_interp, the_frame; cbn beta iota).

Section CallsFacts.
Variable goid : Z.
Variable callFunctionDiscardsResult :
  option addr -> addr -> list value -> list value -> M unit.
Variable callExternalDiscardsResult :
  option addr -> value -> list value -> M unit.
Variable effectBuiltin :
  option addr -> string -> list value -> list ssaValue -> M unit.
Variable prepareCall :
  addr -> CallCommon -> Register -> list Register -> list Register ->
  M (callee * list value).

(** [prepareCall] reads registers and tables; it changes nothing. *)
Hypothesis prepareCall_reads :
  forall fr call iv ia ib w, snd (prepareCall fr call iv ia ib w) = w.

Local Abbreviation runDefer' :=
  (runDefer callFunctionDiscardsResult callExternalDiscardsResult effectBuiltin).
Local Abbreviation runDefers' :=
  (runDefers goid callFunctionDiscardsResult callExternalDiscardsResult
     effectBuiltin).
Local Abbreviation on_panic' :=
  (on_panic goid callFunctionDiscardsResult callExternalDiscardsResult
     effectBuiltin).
Local Abbreviation Defer_step' := (Defer_step prepareCall).





End CallsFacts.


(** The log after the deferred calls have run is 3, 2, 1: on return,
    and when the frame panics (the panic is then raised again). *)
Example defers_logged_on_return :
  let r := runDefers 0 log_call no_external no_effect 1 (three_defers None) in
  fst r = Ok tt /\
  w_heap (snd r) !! 99%positive
  = Some (VArray (TSlice (TBasic Int)) (map (VInt (TBasic Int)) [3; 2; 1])).
Proof. vm_compute. split; reflexivity. Qed.

Example defers_logged_on_panic :
  let r := on_panic 0 log_call no_external no_effect 1 (PString "boom")
             (three_defers None) in
  fst r = Panic (PString "boom") /\
  w_heap (snd r) !! 99%positive
  = Some (VArray (TSlice (TBasic Int)) (map (VInt (TBasic Int)) [3; 2; 1])).
Proof. vm_compute. split; reflexivity. Qed.

(** ** Exit codes, and the DisableRecover mode *)

(** C1, as stated, fails on an interpreter created with DisableRecover:
    a program that calls [os.Exit(3)] does not make [Run] return exit
    code 3; the [exitPanic] leaves [Run] as a panic. *)
Lemma Run_DisableRecover_exit_not_returned :
  fst (Run (exits_with 3) "main" (main_world DisableRecover))
    = Panic (PExit 3) /\
  fst (Run (exits_with 3) "main" (main_world DisableRecover))
    <> Ok (3, None).
Proof. split; vm_compute; [reflexivity | discriminate]. Qed.

Section RunnerFacts.
Variable call :
  option addr -> callee -> list value -> list ssaValue -> M value.

(** C1, amended.  [Run(entry)]: without the entry function the exit
    code is 1 and an error is returned; when the call of the entry
    function returns normally the exit code is 0, without error.  On an
    interpreter without the DisableRecover bit (and still running when
    the call is over): when the call ends in the [exitPanic] of
    [os.Exit(n)] the exit code is n, without error; when it ends in any
    other panic the exit code is 2 and the error carries the panic.
    During a run, [os.Exit(n)] is the panic [exitPanic(n)]. *)
Theorem Run_exit_codes (entry : string) (w : world) :
  (i_members (w_interp w) !! entry = None ->
     Run call entry w
     = (Ok (1, Some (Errorf ("no function " +:+ entry))),
        finished (started w))) /\
  (forall f v w1,
     i_members (w_interp w) !! entry = Some f ->
     call None (FnFunction f) [] [] (started w) = (Ok v, w1) ->
     exists w2, Run call entry w = (Ok (0, None), w2)) /\
  (forall f p w1,
     i_members (w_interp w) !! entry = Some f ->
     call None (FnFunction f) [] [] (started w) = (Panic p, w1) ->
     i_exited (w_interp w1) = false ->
     Z.land (i_mode (w_interp w1)) DisableRecover = 0 ->
     Run call entry w
     = (Ok (match p with PExit n => n | _ => 2 end, error_of_panic p),
        finished w1) /\
     (forall n, p = PExit n -> error_of_panic p = None) /\
     ((forall n, p <> PExit n) -> exists e, error_of_panic p = Some e)) /\
  (forall n w', i_exited (w_interp w') = false ->
     os_Exit n w' = (Panic (PExit n), w')).
Proof.
  repeat apply conj.
  - intros Hm. unfold Run. simpl. rewrite Hm. unfold Run_handler. simpl.
    destruct (negb _); reflexivity.
  - intros f v w1 Hm Hc. unfold Run. simpl. rewrite Hm.
    fold (started w). rewrite Hc. unfold Run_handler.
    destruct (i_exited (w_interp w1)); [eauto|].
    destruct (negb _); eauto.
  - intros f p w1 Hm Hc He Hd. split; [|split].
    + unfold Run. simpl. rewrite Hm. fold (started w). rewrite Hc.
      unfold Run_handler. rewrite He, Hd. simpl.
      destruct p; reflexivity.
    + intros n ->. reflexivity.
    + intros Hn. destruct p; simpl; eauto. exfalso. eapply Hn. reflexivity.
  - intros n w' He. unfold os_Exit. rewrite He. reflexivity.
Qed.

(** C10.  On an interpreter created with the DisableRecover bit,
    [recover()] called from any frame returns nil and leaves the whole
    state, so every panicking record, as it is; a panic that leaves the
    entry function is not intercepted by [Run] or [RunFunc]: it
    propagates to their caller; and a frame whose record is still set
    when its deferred calls have run raises the panic again. *)
Theorem DisableRecover_never_recovers (w : world) :
  Z.land (i_mode (w_interp w)) DisableRecover <> 0 ->
  (forall c, is_Some (w_frames w !! c) ->
     doRecover (Some c) w = (Ok VNil, w)) /\
  (forall entry f p w1,
     i_members (w_interp w) !! entry = Some f ->
     i_mode (w_interp w1) = i_mode (w_interp w) ->
     call None (FnFunction f) [] [] (started w) = (Panic p, w1) ->
     fst (Run call entry w) = Panic p) /\
  (forall name args f p w1,
     i_members (w_interp w) !! name = Some f ->
     i_mode (w_interp w1) = i_mode (w_interp w) ->
     call None (FnFunction f) args [] w = (Panic p, w1) ->
     RunFunc call name args w = (Panic p, w1)) /\
  (forall fr f p,
     w_frames w !! fr = Some f -> fr_panicking f = Some p ->
     fst (leave_defers fr w) = Panic p).
Proof.
  intros Hd.
  assert (Hb : (Z.land (i_mode (w_interp w)) DisableRecover =? 0) = false)
    by (apply Z.eqb_neq; exact Hd).
  repeat apply conj.
  - intros c [fc Hc]. unfold doRecover. rewrite Hc, Hb. reflexivity.
  - intros entry f p w1 Hm Hmode Hc. unfold Run. simpl. rewrite Hm.
    fold (started w). rewrite Hc. unfold Run_handler. rewrite Hmode, Hb.
    simpl. destruct (i_exited (w_interp w1)); reflexivity.
  - intros name args f p w1 Hm Hmode Hc. unfold RunFunc. rewrite Hm, Hc.
    unfold RunFunc_handler. rewrite Hmode, Hb. reflexivity.
  - intros fr f p Hf Hp. unfold leave_defers. munfold. rewrite Hf. simpl.
    rewrite Hf. simpl. rewrite lookup_insert_eq. simpl. rewrite Hp.
    reflexivity.
Qed.
End RunnerFacts.

Lemma Run_exit_codes_witness :
  Run (exits_with 3) "main" (main_world 0)
  = (Ok (3, None), finished (started (main_world 0))).
Proof.
  destruct (Run_exit_codes (exits_with 3) "main" (main_world 0))
    as (_ & _ & H & _).
  destruct (H 5%positive (PExit 3) (started (main_world 0))
              eq_refl eq_refl eq_refl eq_refl) as (E & _ & _).
  exact E.
Defined.

Lemma DisableRecover_never_recovers_witness :
  doRecover (Some 2%positive) (recover_world DisableRecover (PString "boom"))
  = (Ok VNil, recover_world DisableRecover (PString "boom")).
Proof.
  destruct (DisableRecover_never_recovers (exits_with 3)
              (recover_world DisableRecover (PString "boom")))
    as (H & _).
  - vm_compute. discriminate.
  - apply H. eexists. reflexivity.
Defined.

(** ** Comma-ok lookups *)

Lemma map_find_absent k entries :
  (forall k' v', In (k', v') entries -> key_eqb k k' = false) ->
  map_find k entries = None.
Proof.
  induction entries as [|[k' v'] rest IH]; intros H; simpl; [reflexivity|].
  rewrite (H k' v') by (left; reflexivity).
  apply IH. intros k'' v'' Hin. apply (H k'' v''). right. exact Hin.
Qed.

Lemma map_find_present k entries k' v :
  In (k', v) entries -> key_eqb k k' = true ->
  (forall k'' v'', In (k'', v'') entries -> key_eqb k k'' = true -> v'' = v) ->
  map_find k entries = Some v.
Proof.
  induction entries as [|[k1 v1] rest IH]; intros Hin Heq Huniq; [destruct Hin|].
  simpl. destruct (key_eqb k k1) eqn:E.
  - f_equal. apply (Huniq k1 v1); [left; reflexivity | exact E].
  - destruct Hin as [[= -> ->] | Hin]; [congruence|].
    apply IH; [exact Hin | exact Heq |].
    intros k'' v'' Hin'' E''. apply (Huniq k'' v''); [right; exact Hin''|exact E''].
Qed.

(** The comma-ok lookup with a valid key: the zero value of the element
    type and false when no entry has the key, the stored value and true
    when one has. *)
Lemma Lookup_commaok instr typ ir ix ii fr w t a idx entries :
  Kind_of typ = Map -> Lookup_CommaOk instr = true ->
  reg fr ix w = (Ok (VMap t (Some a)), w) ->
  reg fr ii w = (Ok idx, w) ->
  w_maps w !! a = Some entries ->
  idx <> VNil ->
  assignable idx (default (TBasic Invalid) (Key_of t)) = true ->
  hashable idx = true ->
  exists step, Lookup_step instr typ false ir ix ii = Ok step /\
    ((forall k' v', In (k', v') entries -> key_eqb idx k' = false) ->
     step fr w =
     setReg fr ir
       (tuple [Value_Interface (Zero (default (TBasic Invalid) (Elem_of typ)));
               bool_box false]) w) /\
    (forall k' v,
       In (k', v) entries -> key_eqb idx k' = true ->
       (forall k'' v'', In (k'', v'') entries -> key_eqb idx k'' = true ->
                        v'' = v) ->
       step fr w = setReg fr ir (tuple [v; bool_box true]) w).
Proof.
  intros Hk Hok Hm Hi He Hnil Has Hh.
  unfold Lookup_step. rewrite Hk. eexists. split; [reflexivity|].
  assert (HI : Value_MapIndex (VMap t (Some a)) idx w
               = Ok (map_find idx entries)).
  { unfold Value_MapIndex. rewrite Has, Hh, He.
    destruct idx; try reflexivity. contradiction. }
  split.
  - intros Habs. unfold mbind, M_bind, mk. rewrite Hm, Hi, HI.
    rewrite (map_find_absent _ _ Habs). unfold lookup_result.
    rewrite Hok. reflexivity.
  - intros k' v Hin Heq Huniq. unfold mbind, M_bind, mk.
    rewrite Hm, Hi, HI.
    rewrite (map_find_present _ _ _ _ Hin Heq Huniq). unfold lookup_result.
    rewrite Hok. reflexivity.
Qed.

Example lookup_present :
  slot2 (run_lookup (VString (TBasic String) "a"))
  = Some (tuple [VInt (TBasic Int) 1; bool_box true]).
Proof. vm_compute. reflexivity. Qed.

Example lookup_absent :
  slot2 (run_lookup (VString (TBasic String) "b"))
  = Some (tuple [VInt (TBasic Int) 0; bool_box false]).
Proof. vm_compute. reflexivity. Qed.

(** C4 at the failing input: [v, ok := m[k]] on a [map[interface{}]int]
    with [k] the nil interface, a key that is absent from [m].  The box
    of [k] is nil, [reflect.ValueOf] makes the zero Value of it, and
    [MapIndex] panics: the step stores no tuple. *)
Lemma Lookup_nil_interface_key_panics :
  fst (run_lookup VNil) = Panic nil_deref /\
  slot2 (run_lookup VNil) = Some VNil.
Proof. vm_compute. split; reflexivity. Qed.

(** ** Select *)




Section SelectFacts.
Variable reflect_Select : list SelectCase -> M (Z * value * bool).

End SelectFacts.


Example select_second_ready :
  slot2 (Select_step second_ready two_recvs 2 [0; 1] [0; 0] 1 select_world)
  = Some (tuple [int_box 1; bool_box true; int_box 0;
                 VString (TBasic String) "hi"]).
Proof. vm_compute. reflexivity. Qed.

Example select_default :
  slot2 (Select_step nothing_ready two_recvs 2 [0; 1] [0; 0] 1 select_world)
  = Some (tuple [int_box (-1); bool_box false; int_box 0;
                 VString (TBasic String) EmptyString]).
Proof. vm_compute. reflexivity. Qed.
